(** * Server.js: route handlers of the education-platform backend

    A shallow embedding of [src/Server.js].  Every POST handler is a
    computation in a state-and-exception monad over a [World] that holds the
    relational store, the uploads directory, the mail outbox and the console.
    What the environment decides (whether a query or a mail send fails, the
    clock, the draw of [Math.random]) is an explicit input. *)

From Stdlib Require Import ZArith List String Ascii Bool Lia.
Import ListNotations.
Local Open Scope string_scope.
Local Open Scope Z_scope.

(** ** JavaScript values *)

(** The values a field of a parsed JSON body (or of a multipart form) takes
    here: [undefined] when the key is absent, and the JSON scalars.  Numbers
    are integers; nested objects and arrays as field values are outside the
    model. *)
Inductive scalar : Type :=
| JUndefined
| JNull
| JBool (b : bool)
| JNum (n : Z)
| JStr (s : string).

(** [!v] is [negb (truthy v)]. *)
Definition truthy (v : scalar) : bool :=
  match v with
  | JUndefined | JNull => false
  | JBool b => b
  | JNum n => negb (n =? 0)
  | JStr s => negb (s =? "")%string
  end.

(** [req.body]: the keys that are present, with their values. *)
Definition body := list (string * scalar).

Fixpoint assoc {A : Type} (k : string) (l : list (string * A)) : option A :=
  match l with
  | [] => None
  | (k', v) :: rest => if (k =? k')%string then Some v else assoc k rest
  end.

(** Reading a property: an absent key reads as [undefined]. *)
Definition prop (k : string) (b : body) : scalar :=
  match assoc k b with
  | Some v => v
  | None => JUndefined
  end.

(** A destructuring default, [{ k = d } = req.body]: the default replaces
    [undefined] only. *)
Definition prop_default (k : string) (d : scalar) (b : body) : scalar :=
  match prop k b with
  | JUndefined => d
  | v => v
  end.

(** A bound [?] parameter as the driver writes it: [undefined] goes to the
    store as NULL, every other scalar as it is. *)
Definition to_sql (v : scalar) : scalar :=
  match v with
  | JUndefined => JNull
  | _ => v
  end.

(** Errors a handler can see thrown. *)
Inductive js_error : Type :=
| DbError
| MailError
| ReferenceError (ident : string)
| UploadError (msg : string).

(** What goes into [res.json]: scalars, a row object, or a raw error. *)
Inductive jsval : Type :=
| V (s : scalar)
| Row (cols : list (string * scalar))
| Err (e : js_error).

Inductive rbody : Type :=
| Json (fields : list (string * jsval))
| Html (page : string).

Record response : Type := mkResponse { status : Z; payload : rbody }.

Definition json (code : Z) (fields : list (string * jsval)) : response :=
  mkResponse code (Json fields).

(** A field of a JSON response; [undefined] when there is none. *)
Definition field (k : string) (r : response) : jsval :=
  match payload r with
  | Json fields => match assoc k fields with Some v => v | None => V JUndefined end
  | Html _ => V JUndefined
  end.

(** ** The relational store *)

(** Rows carry the columns the INSERT statements of the source name; the
    four tables whose [insertId] (or [ORDER BY id]) the source uses also
    carry the generated key. *)
Record Enrollment := mkEnrollment {
  en_id : Z; en_name : scalar; en_email : scalar; en_phone : scalar;
  en_status : scalar; en_course_id : scalar }.

Record User := mkUser { u_name : scalar; u_email : scalar; u_password : scalar }.

Record Otp := mkOtp { o_email : scalar; o_otp : scalar; o_expires_at : Z }.

Record Registration := mkRegistration {
  r_name : scalar; r_email : scalar; r_phone : scalar;
  r_current_status : scalar; r_workshop_title : scalar }.

Record MentorApplication := mkMentorApplication {
  m_id : Z; m_name : scalar; m_email : scalar; m_phone : scalar;
  m_expertise : scalar; m_experience : scalar; m_message : scalar;
  m_resume : string }.

Record Testimonial := mkTestimonial {
  t_id : Z; t_name : scalar; t_role : scalar; t_review : scalar;
  t_verified : scalar }.

Record DemoRequest := mkDemoRequest {
  d_id : Z; d_name : scalar; d_email : scalar; d_phone : scalar;
  d_status : scalar; d_course : scalar; d_message : scalar }.

(** A table with a generated key: its rows and the next AUTO_INCREMENT
    value. *)
Record keyed (R : Type) := mkKeyed { rows : list R; next_id : Z }.
Arguments mkKeyed {R} _ _.
Arguments rows {R} _.
Arguments next_id {R} _.

Record Store := mkStore {
  enrollments : keyed Enrollment;
  users : list User;
  user_otps : list Otp;
  registrations : list Registration;
  mentor_applications : keyed MentorApplication;
  testimonials : keyed Testimonial;
  demo_requests : keyed DemoRequest }.

(** A mail handed to the transport. *)
Record Mail := mkMail { mail_to : scalar; mail_subject : string; mail_html : string }.

(** ** The world a handler runs in *)

(** [db_faults] and [mail_faults] are oracles: each query (each send) takes
    the head, [true] meaning that this call fails; an exhausted oracle means
    no failure.  [transporter] is [false] when the module-level
    [transporter] stayed [null]. *)
Record World := mkWorld {
  db : Store;
  uploads : list (string * string);
  outbox : list Mail;
  console : list string;
  transporter : bool;
  db_faults : list bool;
  mail_faults : list bool }.

Definition set_db (s : Store) (w : World) : World :=
  mkWorld s (uploads w) (outbox w) (console w) (transporter w) (db_faults w) (mail_faults w).
Definition set_uploads (u : list (string * string)) (w : World) : World :=
  mkWorld (db w) u (outbox w) (console w) (transporter w) (db_faults w) (mail_faults w).
Definition set_outbox (o : list Mail) (w : World) : World :=
  mkWorld (db w) (uploads w) o (console w) (transporter w) (db_faults w) (mail_faults w).
Definition set_console (c : list string) (w : World) : World :=
  mkWorld (db w) (uploads w) (outbox w) c (transporter w) (db_faults w) (mail_faults w).
Definition set_db_faults (f : list bool) (w : World) : World :=
  mkWorld (db w) (uploads w) (outbox w) (console w) (transporter w) f (mail_faults w).
Definition set_mail_faults (f : list bool) (w : World) : World :=
  mkWorld (db w) (uploads w) (outbox w) (console w) (transporter w) (db_faults w) f.

(** ** The handler monad: state and exceptions *)

Inductive outcome (A : Type) : Type :=
| Return (a : A)
| Throw (e : js_error).
Arguments Return {A} _.
Arguments Throw {A} _.

Definition M (A : Type) : Type := World -> outcome A * World.

Definition ret {A} (a : A) : M A := fun w => (Return a, w).
Definition throw {A} (e : js_error) : M A := fun w => (Throw e, w).
Definition bind {A B} (m : M A) (k : A -> M B) : M B :=
  fun w => match m w with
           | (Return a, w') => k a w'
           | (Throw e, w') => (Throw e, w')
           end.
(** [try { m } catch (err) { h err }] *)
Definition try_catch {A} (m : M A) (h : js_error -> M A) : M A :=
  fun w => match m w with
           | (Return a, w') => (Return a, w')
           | (Throw e, w') => h e w'
           end.

Notation "x <- m ;; k" := (bind m (fun x => k))
  (at level 61, m at next level, right associativity).
Notation "m ;;; k" := (bind m (fun _ => k))
  (at level 61, right associativity).

Definition console_log (line : string) : M unit :=
  fun w => (Return tt, set_console (line :: console w) w).

(** [await db.query(...)]: the statement [op] runs on the store unless the
    oracle makes this call fail. *)
Definition db_query {A} (op : Store -> A * Store) : M A :=
  fun w =>
    let run w0 := let (a, s) := op (db w0) in (Return a, set_db s w0) in
    match db_faults w with
    | [] => run w
    | true :: rest => (Throw DbError, set_db_faults rest w)
    | false :: rest => run (set_db_faults rest w)
    end.

(** [transporter.sendMail(...)]: the promise rejects when the oracle says
    so, otherwise the mail is handed over. *)
Definition transport_send (m : Mail) : M unit :=
  fun w =>
    match mail_faults w with
    | [] => (Return tt, set_outbox (m :: outbox w) w)
    | true :: rest => (Throw MailError, set_mail_faults rest w)
    | false :: rest => (Return tt, set_outbox (m :: outbox w) (set_mail_faults rest w))
    end.

(** [sendMailSafe(to, subject, html)], lines 71-86. *)
Definition sendMailSafe (to : scalar) (subject html : string) : M unit :=
  fun w =>
    if negb (transporter w) then
      console_log "Skipping email - transporter not configured" w
    else
      try_catch (transport_send (mkMail to subject html))
                (fun _ => console_log "Failed to send email") w.

(** The function bindings of the module.  A call [f(...)] of an identifier
    that neither the module nor the runtime binds throws a ReferenceError
    when it is evaluated: [sendMailSafe] is the only mail function the file
    declares. *)
Definition module_functions : list (string * (scalar -> string -> string -> M unit)) :=
  [("sendMailSafe", sendMailSafe)].

Definition call (f : string) (to : scalar) (subject html : string) : M unit :=
  match assoc f module_functions with
  | Some g => g to subject html
  | None => throw (ReferenceError f)
  end.

(** ** Strings of numbers and values *)

Definition digit_char (d : Z) : ascii := ascii_of_nat (48 + Z.to_nat d).

Fixpoint dec_digits (fuel : nat) (n : Z) (acc : string) : string :=
  match fuel with
  | O => acc
  | S f =>
      let acc' := String (digit_char (n mod 10)) acc in
      if n / 10 =? 0 then acc' else dec_digits f (n / 10) acc'
  end.

(** [n.toString()] and the string a number becomes under [+] with a string,
    for an integer [n]: its decimal digits.  A number has at most
    [log2 n + 1] of them. *)
Definition Z_to_string (n : Z) : string :=
  if n <? 0 then "-" ++ dec_digits (S (Z.to_nat (Z.log2 (- n)))) (- n) ""
  else dec_digits (S (Z.to_nat (Z.log2 n))) n "".

(** [${v}] inside a template literal. *)
Definition js_to_string (v : scalar) : string :=
  match v with
  | JUndefined => "undefined"
  | JNull => "null"
  | JBool true => "true"
  | JBool false => "false"
  | JNum n => Z_to_string n
  | JStr s => s
  end.

Definition is_digit (c : ascii) : bool :=
  let n := nat_of_ascii c in (48 <=? n)%nat && (n <=? 57)%nat.

Fixpoint all_digits (s : string) : bool :=
  match s with
  | EmptyString => true
  | String c rest => is_digit c && all_digits rest
  end.

(** ** Double-precision arithmetic of the one-time code

    [Math.floor(100000 + Math.random() * 900000)] is computed on IEEE-754
    doubles.  Every finite double is an integer multiple of 2^-1074, so a
    non-negative double is represented by that integer; sums of doubles and
    products of a double with an integer-valued double stay on this grid,
    and rounding to nearest, ties to even, keeps the 53 leading bits. *)
Module Double.

Definition grid : Z := 1074.
Definition one : Z := 2 ^ grid.
Definition of_int (n : Z) : Z := n * one.

(** Round a non-negative grid value to a double. *)
Definition round53 (x : Z) : Z :=
  let b := Z.log2 x in
  if b <? 53 then x
  else
    let s := b - 52 in
    let q := x / 2 ^ s in
    let r := x mod 2 ^ s in
    let half := 2 ^ (s - 1) in
    if (half <? r) || ((r =? half) && Z.odd q) then (q + 1) * 2 ^ s
    else q * 2 ^ s.

Definition representable (x : Z) : Prop := 0 <= x /\ round53 x = x.

(** [a + b] on doubles. *)
Definition add (a b : Z) : Z := round53 (a + b).
(** [a * k] for a double [a] and an integer-valued double [k]. *)
Definition mul_int (a k : Z) : Z := round53 (a * k).
(** [Math.floor] of a non-negative double, as an integer. *)
Definition floor (a : Z) : Z := a / one.

(** What [Math.random()] may return: a double in [0, 1). *)
Definition random_draw (r : Z) : Prop := representable r /\ r < one.

End Double.

(** Line 197: [Math.floor(100000 + Math.random() * 900000)], for the draw
    [r] of [Math.random()]. *)
Definition otp_number (r : Z) : Z :=
  Double.floor (Double.add (Double.of_int 100000) (Double.mul_int r 900000)).

Definition generate_otp (r : Z) : string := Z_to_string (otp_number r).

(** ** File names *)

Definition slash : ascii := "/"%char.
Definition dot : ascii := "."%char.

Record ext_scan := mkExtScan {
  startDot : Z; startPart : Z; end_ : Z; matchedSlash : bool; preDotState : Z }.

(** The loop of Node's POSIX [path.extname], from the last character down;
    [i] is the index of the head of [chars_rev]. *)
Fixpoint extname_scan (chars_rev : list ascii) (i : Z) (st : ext_scan) : ext_scan :=
  match chars_rev with
  | [] => st
  | c :: rest =>
      if Ascii.eqb c slash then
        if negb (matchedSlash st) then
          mkExtScan (startDot st) (i + 1) (end_ st) (matchedSlash st) (preDotState st)
        else extname_scan rest (i - 1) st
      else
        let st1 :=
          if end_ st =? -1
          then mkExtScan (startDot st) (startPart st) (i + 1) false (preDotState st)
          else st in
        let st2 :=
          if Ascii.eqb c dot then
            if startDot st1 =? -1
            then mkExtScan i (startPart st1) (end_ st1) (matchedSlash st1) (preDotState st1)
            else if negb (preDotState st1 =? 1)
                 then mkExtScan (startDot st1) (startPart st1) (end_ st1) (matchedSlash st1) 1
                 else st1
          else if negb (startDot st1 =? -1)
               then mkExtScan (startDot st1) (startPart st1) (end_ st1) (matchedSlash st1) (-1)
               else st1 in
        extname_scan rest (i - 1) st2
  end.

(** [path.extname(p)]: from the last dot of the last path segment to its
    end, or the empty string when there is no such dot or the segment only
    starts with it. *)
Definition extname (p : string) : string :=
  let len := Z.of_nat (String.length p) in
  let st := extname_scan (rev (list_ascii_of_string p)) (len - 1)
                         (mkExtScan (-1) 0 (-1) true 0) in
  if (startDot st =? -1) || (end_ st =? -1) || (preDotState st =? 0)
     || ((preDotState st =? 1) && (startDot st =? end_ st - 1)
         && (startDot st =? startPart st + 1))
  then ""
  else substring (Z.to_nat (startDot st)) (Z.to_nat (end_ st - startDot st)) p.

Definition lower_char (c : ascii) : ascii :=
  let n := nat_of_ascii c in
  if (65 <=? n)%nat && (n <=? 90)%nat then ascii_of_nat (n + 32) else c.

(** [s.toLowerCase()] on the ASCII letters; no other character lowers to a
    letter of the three allowed extensions. *)
Fixpoint toLowerCase (s : string) : string :=
  match s with
  | EmptyString => EmptyString
  | String c rest => String (lower_char c) (toLowerCase rest)
  end.

Definition includes (l : list string) (s : string) : bool :=
  existsb (String.eqb s) l.

Fixpoint strip_prefix (p s : string) : option string :=
  match p, s with
  | EmptyString, _ => Some s
  | String a p', String b s' => if Ascii.eqb a b then strip_prefix p' s' else None
  | String _ _, EmptyString => None
  end.

(** ** Statements on the store *)

(** The store's [=] between a bound parameter and a column value.  It
    depends on the column types and collations of the schema, which the
    repository does not contain, so the handlers are written over any such
    comparison. *)
Class SqlCompare : Type := sql_eq : scalar -> scalar -> bool.

Definition insert_keyed {R : Type} (mk : Z -> R) (t : keyed R) : Z * keyed R :=
  (next_id t, mkKeyed (rows t ++ [mk (next_id t)]) (next_id t + 1)).

(** INSERT INTO enrollments (name, email, phone, status, course_id); the
    result is [insertId]. *)
Definition insert_enrollment (name email phone status courseId : scalar)
  (s : Store) : Z * Store :=
  let (id, t) := insert_keyed
    (fun id => mkEnrollment id (to_sql name) (to_sql email) (to_sql phone)
                            (to_sql status) (to_sql courseId)) (enrollments s) in
  (id, mkStore t (users s) (user_otps s) (registrations s)
               (mentor_applications s) (testimonials s) (demo_requests s)).

(** INSERT INTO users (name, email, password) *)
Definition insert_user (name email password : scalar) (s : Store) : unit * Store :=
  (tt, mkStore (enrollments s)
               (users s ++ [mkUser (to_sql name) (to_sql email) (to_sql password)])
               (user_otps s) (registrations s)
               (mentor_applications s) (testimonials s) (demo_requests s)).

(** INSERT INTO user_otps (email, otp, expires_at) *)
Definition insert_otp (email : scalar) (otp : string) (expiresAt : Z)
  (s : Store) : unit * Store :=
  (tt, mkStore (enrollments s) (users s)
               (user_otps s ++ [mkOtp (to_sql email) (JStr otp) expiresAt])
               (registrations s)
               (mentor_applications s) (testimonials s) (demo_requests s)).

(** INSERT INTO registrations (name, email, phone, current_status,
    workshop_title) *)
Definition insert_registration (name email phone currentStatus workshop : scalar)
  (s : Store) : unit * Store :=
  (tt, mkStore (enrollments s) (users s) (user_otps s)
               (registrations s ++
                  [mkRegistration (to_sql name) (to_sql email) (to_sql phone)
                                  (to_sql currentStatus) (to_sql workshop)])
               (mentor_applications s) (testimonials s) (demo_requests s)).

(** INSERT INTO mentor_applications (name, email, phone, expertise,
    experience, message, resume) *)
Definition insert_mentor_application
  (name email phone expertise experience message : scalar) (resume : string)
  (s : Store) : Z * Store :=
  let (id, t) := insert_keyed
    (fun id => mkMentorApplication id (to_sql name) (to_sql email) (to_sql phone)
                 (to_sql expertise) (to_sql experience) (to_sql message) resume)
    (mentor_applications s) in
  (id, mkStore (enrollments s) (users s) (user_otps s) (registrations s)
               t (testimonials s) (demo_requests s)).

(** INSERT INTO testimonials (name, role, review, verified) *)
Definition insert_testimonial (name role review verified : scalar)
  (s : Store) : Z * Store :=
  let (id, t) := insert_keyed
    (fun id => mkTestimonial id (to_sql name) (to_sql role) (to_sql review)
                             (to_sql verified)) (testimonials s) in
  (id, mkStore (enrollments s) (users s) (user_otps s) (registrations s)
               (mentor_applications s) t (demo_requests s)).

(** INSERT INTO demo_requests (name, email, phone, status, course, message) *)
Definition insert_demo_request (name email phone status course message : scalar)
  (s : Store) : Z * Store :=
  let (id, t) := insert_keyed
    (fun id => mkDemoRequest id (to_sql name) (to_sql email) (to_sql phone)
                 (to_sql status) (to_sql course) (to_sql message))
    (demo_requests s) in
  (id, mkStore (enrollments s) (users s) (user_otps s) (registrations s)
               (mentor_applications s) (testimonials s) t).

Section Statements.
Context {cmp : SqlCompare}.

(** SELECT * FROM users WHERE email = ? *)
Definition select_users_by_email (email : scalar) (s : Store) : list User * Store :=
  (filter (fun u => sql_eq (to_sql email) (u_email u)) (users s), s).

(** SELECT * FROM users WHERE email = ? AND password = ? *)
Definition select_users_by_credentials (email password : scalar) (s : Store)
  : list User * Store :=
  (filter (fun u => sql_eq (to_sql email) (u_email u)
                    && sql_eq (to_sql password) (u_password u)) (users s), s).

(** The WHERE clause of line 218, at the store's time [sql_now]. *)
Definition otp_live (sql_now : Z) (email otp : scalar) (o : Otp) : bool :=
  sql_eq (to_sql email) (o_email o) && sql_eq (to_sql otp) (o_otp o)
  && (sql_now <? o_expires_at o).

(** SELECT * FROM user_otps WHERE email = ? AND otp = ? AND
    expires_at > NOW() *)
Definition select_live_otps (sql_now : Z) (email otp : scalar) (s : Store)
  : list Otp * Store :=
  (filter (otp_live sql_now email otp) (user_otps s), s).

(** DELETE FROM user_otps WHERE email = ? *)
Definition delete_otps (email : scalar) (s : Store) : unit * Store :=
  (tt, mkStore (enrollments s) (users s)
               (filter (fun o => negb (sql_eq (to_sql email) (o_email o))) (user_otps s))
               (registrations s)
               (mentor_applications s) (testimonials s) (demo_requests s)).

End Statements.

(** ** The route handlers *)

Definition nl : string := String (ascii_of_nat 10) EmptyString.

Definition academy : scalar := JStr "deeplearneracademy@gmail.com".

Definition all_fields_required : response :=
  json 400 [("success", V (JBool false));
            ("message", V (JStr "All fields are required"))].

Section Handlers.
Context {cmp : SqlCompare}.

(** POST /api/enroll, lines 116-155. *)
Definition enroll (req : body) : M response :=
  let name := prop "name" req in
  let email := prop "email" req in
  let phone := prop "phone" req in
  let status := prop_default "status" (JStr "Pending") req in
  let courseId := prop "courseId" req in
  if negb (truthy name) || negb (truthy email) || negb (truthy phone)
     || negb (truthy courseId)
  then ret all_fields_required
  else
    try_catch
      (result <- db_query (insert_enrollment name email phone status courseId) ;;
       call "sendMailSafe" academy "📩 New Enrollment"
         ("<h2>" ++ js_to_string name ++ " enrolled in Course ID: "
            ++ js_to_string courseId ++ "</h2>" ++ nl
            ++ "       <p>Email: " ++ js_to_string email ++ "</p>" ++ nl
            ++ "       <p>Phone: " ++ js_to_string phone ++ "</p>" ++ nl
            ++ "       <p>Status: " ++ js_to_string status ++ "</p>") ;;;
       call "sendMailSafe" email "✅ Enrollment Successful"
         ("<h2>Hi " ++ js_to_string name ++ ",</h2>" ++ nl
            ++ "       <p>You are successfully enrolled in course ID: "
            ++ js_to_string courseId ++ "! 🎉</p>" ++ nl
            ++ "       <p>Our team will contact you soon.</p>" ++ nl
            ++ "       <br/>- Deep Learner Academy Team") ;;;
       ret (json 201 [("success", V (JBool true));
                      ("message", V (JStr "Enrollment successful, confirmation email sent"));
                      ("enrollmentId", V (JNum result))]))
      (fun err =>
         console_log "Enrollment Error:" ;;;
         ret (json 500 [("success", V (JBool false));
                        ("message", V (JStr "Server error, please try again later"))])).

(** POST /api/signup, lines 168-184. *)
Definition signup (req : body) : M response :=
  let name := prop "name" req in
  let email := prop "email" req in
  let password := prop "password" req in
  try_catch
    (existing <- db_query (select_users_by_email email) ;;
     if (0 <? List.length existing)%nat
     then ret (json 400 [("message", V (JStr "User already exists"))])
     else
       db_query (insert_user name email password) ;;;
       ret (json 200 [("message", V (JStr "Signup successful!"))]))
    (fun err =>
       console_log "error" ;;;
       ret (json 500 [("message", V (JStr "Server error"))])).

(** POST /api/login, lines 188-211.  [date_now] is [Date.now()] and
    [random] the draw of [Math.random()]. *)
Definition login (date_now random : Z) (req : body) : M response :=
  let email := prop "email" req in
  let password := prop "password" req in
  try_catch
    (rows <- db_query (select_users_by_credentials email password) ;;
     match rows with
     | [] => ret (json 400 [("message", V (JStr "Invalid email or password"))])
     | user :: _ =>
         let otp := generate_otp random in
         let expiresAt := date_now + 10 * 60 * 1000 in
         db_query (insert_otp email otp expiresAt) ;;;
         call "sendMail" email "Your OTP Code" ("<h2>Your OTP is " ++ otp ++ "</h2>") ;;;
         ret (json 200 [("message", V (JStr "OTP sent to your email"))])
     end)
    (fun err =>
       console_log "error" ;;;
       ret (json 500 [("message", V (JStr "Server error"))])).

(** The object a selected users row is in JavaScript. *)
Definition user_object (u : User) : jsval :=
  Row [("name", u_name u); ("email", u_email u); ("password", u_password u)].

(** POST /api/verify-otp, lines 214-239.  [sql_now] is the store's
    [NOW()]. *)
Definition verify_otp (sql_now : Z) (req : body) : M response :=
  let email := prop "email" req in
  let otp := prop "otp" req in
  try_catch
    (rows <- db_query (select_live_otps sql_now email otp) ;;
     match rows with
     | [] => ret (json 400 [("message", V (JStr "Invalid or expired OTP"))])
     | _ :: _ =>
         db_query (delete_otps email) ;;;
         users <- db_query (select_users_by_email email) ;;
         let user := match users with
                     | [] => V JUndefined
                     | u :: _ => user_object u
                     end in
         let token := "FAKE-JWT-TOKEN" in
         ret (json 200 [("message", V (JStr "Login successful"));
                        ("token", V (JStr token));
                        ("user", user)])
     end)
    (fun err =>
       console_log "error" ;;;
       ret (json 500 [("message", V (JStr "Server error"))])).

(** POST /api/register, lines 251-282. *)
Definition register (req : body) : M response :=
  let name := prop "name" req in
  let email := prop "email" req in
  let phone := prop "phone" req in
  let currentStatus := prop "currentStatus" req in
  let workshop := prop "workshop" req in
  if negb (truthy name) || negb (truthy email) || negb (truthy phone)
     || negb (truthy workshop)
  then ret all_fields_required
  else
    try_catch
      (db_query (insert_registration name email phone currentStatus workshop) ;;;
       call "sendMail" academy "📩 New Workshop Registration"
         ("<h2>" ++ js_to_string name ++ " registered for "
            ++ js_to_string workshop ++ "</h2>" ++ nl
            ++ "       <p>Email: " ++ js_to_string email ++ "</p>" ++ nl
            ++ "       <p>Phone: " ++ js_to_string phone ++ "</p>" ++ nl
            ++ "       <p>Status: " ++ js_to_string currentStatus ++ "</p>") ;;;
       call "sendMail" email ("✅ Registered for " ++ js_to_string workshop)
         ("<h2>Hi " ++ js_to_string name ++ ",</h2>" ++ nl
            ++ "       <p>You have successfully registered for <strong>"
            ++ js_to_string workshop ++ "</strong>.</p>" ++ nl
            ++ "       <p>We will contact you soon.</p>" ++ nl
            ++ "       <br/>Deep learner Academy Team") ;;;
       ret (json 200 [("success", V (JBool true));
                      ("message", V (JStr "Registration successful!"))]))
      (fun err =>
         console_log "error" ;;;
         ret (json 500 [("success", V (JBool false));
                        ("message", V (JStr "DB error"))])).

(** POST /api/testimonials, lines 312-323. *)
Definition post_testimonial (req : body) : M response :=
  let name := prop "name" req in
  let role := prop "role" req in
  let review := prop "review" req in
  let verified := prop "verified" req in
  try_catch
    (result <- db_query (insert_testimonial name role review verified) ;;
     ret (json 200 [("message", V (JStr "Testimonial added successfully"));
                    ("id", V (JNum result))]))
    (fun err => ret (json 500 [("error", Err err)])).

(** POST /api/demo-request, lines 336-368. *)
Definition demo_request (req : body) : M response :=
  let name := prop "name" req in
  let email := prop "email" req in
  let phone := prop "phone" req in
  let status := prop "status" req in
  let course := prop "course" req in
  let message := prop "message" req in
  try_catch
    (result <- db_query (insert_demo_request name email phone status course message) ;;
     call "sendMail" academy "📩 New Demo Request"
       ("<h2>New Demo Request</h2>" ++ nl
          ++ "       <p><strong>Name:</strong> " ++ js_to_string name ++ "</p>" ++ nl
          ++ "       <p><strong>Email:</strong> " ++ js_to_string email ++ "</p>" ++ nl
          ++ "       <p><strong>Phone:</strong> " ++ js_to_string phone ++ "</p>" ++ nl
          ++ "       <p><strong>Status:</strong> " ++ js_to_string status ++ "</p>" ++ nl
          ++ "       <p><strong>Course:</strong> " ++ js_to_string course ++ "</p>" ++ nl
          ++ "       <p><strong>Message:</strong> " ++ js_to_string message ++ "</p>") ;;;
     call "sendMail" email "✅ Your Demo Request Received"
       ("<h2>Hi " ++ js_to_string name ++ ",</h2>" ++ nl
          ++ "       <p>Thank you for requesting a demo class with Deep learner Academy.</p>" ++ nl
          ++ "       <p>We will reach out to you shortly regarding <strong>"
          ++ js_to_string course ++ "</strong>.</p>" ++ nl
          ++ "       <p>📞 Our team will contact you on: " ++ js_to_string phone ++ "</p>" ++ nl
          ++ "       <br/><p>Best regards,<br/>Deep learner Academy</p>") ;;;
     ret (json 200 [("success", V (JBool true)); ("id", V (JNum result))]))
    (fun err =>
       console_log "error" ;;;
       ret (json 500 [("error", V (JStr "Database insert failed"))])).

End Handlers.

(** ** Uploads: the multer middleware and POST /api/mentor-apply *)

(** The file part of a multipart request. *)
Record upfile := mkUpfile { originalname : string; content : string }.

(** A multipart request: its text fields and the part named [resume]. *)
Record multipart := mkMultipart { form : body; resume : option upfile }.

(** [fileFilter], lines 34-37. *)
Definition fileFilter (f : upfile) : bool :=
  includes [".pdf"; ".doc"; ".docx"] (toLowerCase (extname (originalname f))).

(** [limits.fileSize], line 38. *)
Definition fileSize : Z := 10 * 1024 * 1024.

(** Whether the size limit stops a file.  A file above the limit is always
    stopped; the releases of the multipart parser differ on a file of exactly
    the limit, which [at_limit] decides. *)
Definition too_large (at_limit : bool) (f : upfile) : bool :=
  let size := Z.of_nat (String.length (content f)) in
  if at_limit then fileSize <=? size else fileSize <? size.

(** Writing a file of the uploads directory, replacing one of that name. *)
Definition write_upload (name data : string) : M unit :=
  fun w => (Return tt, set_uploads ((name, data) :: uploads w) w).

(** [upload.single("resume")], lines 28-39: the filter, then the disk
    storage under the name [Date.now() + path.extname(originalname)]; a file
    stopped by the limit is removed again.  The result is
    [req.file.filename], if there is a file. *)
Definition upload_single (at_limit : bool) (date_now : Z) (req : multipart)
  : M (option string) :=
  match resume req with
  | None => ret None
  | Some f =>
      if negb (fileFilter f) then throw (UploadError "Invalid file type")
      else if too_large at_limit f then throw (UploadError "File too large")
      else
        let filename := Z_to_string date_now ++ extname (originalname f) in
        write_upload filename (content f) ;;;
        ret (Some filename)
  end.

(** The handler of lines 285-300, given [req.body] and [req.file]. *)
Definition mentor_apply (req : body) (file : option string) : M response :=
  let name := prop "name" req in
  let email := prop "email" req in
  let phone := prop "phone" req in
  let expertise := prop "expertise" req in
  let experience := prop "experience" req in
  let message := prop "message" req in
  match file with
  | None => ret (json 400 [("success", V (JBool false));
                           ("message", V (JStr "Resume is required"))])
  | Some resume =>
      try_catch
        (result <- db_query (insert_mentor_application name email phone expertise
                                                       experience message resume) ;;
         ret (json 200 [("success", V (JBool true));
                        ("id", V (JNum result));
                        ("fileUrl", V (JStr ("/uploads/" ++ resume)))]))
        (fun err =>
           console_log "error" ;;;
           ret (json 500 [("success", V (JBool false));
                          ("message", V (JStr "DB insert failed"))]))
  end.

(** An error a middleware passes on reaches the framework's default error
    handler, the file registering none of its own: the status is the error's
    own [status] if it has one, and 500 for these errors, which have none. *)
Definition default_error_handler (e : js_error) : response :=
  mkResponse 500 (Html "Internal Server Error").

(** The route of line 285: the middleware, then the handler. *)
Definition mentor_apply_route (at_limit : bool) (date_now : Z) (req : multipart)
  : M response :=
  fun w =>
    match upload_single at_limit date_now req w with
    | (Return file, w') => mentor_apply (form req) file w'
    | (Throw e, w') => (Return (default_error_handler e), w')
    end.

(** GET of a path under the static mount of line 26. *)
Definition static_get (url : string) (w : World) : option string :=
  match strip_prefix "/uploads/" url with
  | Some name => assoc name (uploads w)
  | None => None
  end.

(** ** A store to evaluate on *)

(** Byte-wise comparison of like values, NULL equal to nothing. *)
#[export] Instance binary_compare : SqlCompare :=
  fun a b =>
    match a, b with
    | JStr x, JStr y => (x =? y)%string
    | JNum x, JNum y => x =? y
    | JBool x, JBool y => Bool.eqb x y
    | _, _ => false
    end.

Definition empty_store : Store :=
  mkStore (mkKeyed [] 1) [] [] [] (mkKeyed [] 1) (mkKeyed [] 1) (mkKeyed [] 1).

Definition world0 (s : Store) : World := mkWorld s [] [] [] true [] [].

(** The first [n] queries from [w] on do not fail. *)
Definition db_ok (n : nat) (w : World) : bool :=
  forallb negb (firstn n (db_faults w)).

(** The world after a query that did not fail has used up one oracle
    entry. *)
Definition tick_db (w : World) : World :=
  match db_faults w with
  | [] => w
  | _ :: rest => set_db_faults rest w
  end.

(** The check of line 118 passes. *)
Definition enroll_checked (req : body) : bool :=
  truthy (prop "name" req) && truthy (prop "email" req)
  && truthy (prop "phone" req) && truthy (prop "courseId" req).

(** ** Requests and stores to evaluate on *)

Definition ann_enroll : body :=
  [("name", JStr "Ann"); ("email", JStr "ann@example.org");
   ("phone", JStr "5550100"); ("courseId", JNum 3)].

Definition ann_register : body :=
  [("name", JStr "Ann"); ("email", JStr "ann@example.org");
   ("phone", JStr "5550100"); ("currentStatus", JStr "Student");
   ("workshop", JStr "Deep Learning 101")].

Definition ann_demo : body :=
  [("name", JStr "Ann"); ("email", JStr "ann@example.org");
   ("phone", JStr "5550100"); ("status", JStr "Student");
   ("course", JStr "Vision"); ("message", JStr "Evenings please")].

Definition ann : User :=
  mkUser (JStr "Ann") (JStr "ann@example.org") (JStr "hunter2").

Definition ann_login : body :=
  [("email", JStr "ann@example.org"); ("password", JStr "hunter2")].

Definition store_with_ann : Store :=
  mkStore (mkKeyed [] 1) [ann] [] [] (mkKeyed [] 1) (mkKeyed [] 1) (mkKeyed [] 1).

(** A world whose sends all fail. *)
Definition failing_mail (s : Store) : World :=
  mkWorld s [] [] [] true [] [true; true].

(** The world [w] with another transport and another mail oracle. *)
Definition with_mail (configured : bool) (sends : list bool) (w : World) : World :=
  mkWorld (db w) (uploads w) (outbox w) (console w) configured (db_faults w) sends.

Definition half_draw : Z := Double.one / 2.

(** Ann logs in twice, ten minutes and more apart, and [Math.random]
    draws the same number both times. *)
Definition after_two_logins : World :=
  snd (login 700000 half_draw ann_login
         (snd (login 0 half_draw ann_login (world0 store_with_ann)))).

Definition stale_code : Otp :=
  mkOtp (JStr "ann@example.org") (JStr "550000") 600000.

Definition ann_verify : body :=
  [("email", JStr "ann@example.org"); ("otp", JStr "550000")].

(** Ann's code of the first login alone. *)
Definition store_with_code : Store :=
  mkStore (mkKeyed [] 1) [ann] [stale_code] [] (mkKeyed [] 1) (mkKeyed [] 1)
          (mkKeyed [] 1).

Definition exe_upload : multipart :=
  mkMultipart [("name", JStr "Ann"); ("email", JStr "ann@example.org")]
              (Some (mkUpfile "virus.exe" "MZ")).

Definition pdf_upload : multipart :=
  mkMultipart [("name", JStr "Ann"); ("email", JStr "ann@example.org")]
              (Some (mkUpfile "Resume.PDF" "%PDF-1.7")).

(** A world whose next query fails. *)
Definition db_down (s : Store) : World := mkWorld s [] [] [] true [true] [].

(** The check of line 253 passes. *)
Definition register_checked (req : body) : bool :=
  truthy (prop "name" req) && truthy (prop "email" req)
  && truthy (prop "phone" req) && truthy (prop "workshop" req).

(** A character of a file name that is neither a separator nor a dot. *)
Definition plain_char (c : ascii) : bool :=
  negb (Ascii.eqb c slash) && negb (Ascii.eqb c dot).

Fixpoint plain (s : string) : bool :=
  match s with
  | EmptyString => true
  | String c rest => plain_char c && plain rest
  end.

(** Reading a run of decimal digits back, most significant first. *)
Definition digit_value (c : ascii) : Z := Z.of_nat (nat_of_ascii c) - 48.

Fixpoint decimal_value (s : string) (acc : Z) : Z :=
  match s with
  | EmptyString => acc
  | String c rest => decimal_value rest (acc * 10 + digit_value c)
  end.

(** A string doubled [n] times, to build large files. *)
Fixpoint doubled (n : nat) (s : string) : string :=
  match n with
  | O => s
  | S k => doubled k (s ++ s)
  end.

(** ** The GET handlers *)

#[local] Unset Elimination Schemes.
(** A parsed JSON text, as [JSON.parse] returns it. *)
Inductive jtree : Type :=
| JLeaf (s : scalar)
| JArray (items : list jtree)
| JObject (members : list (string * jtree)).
#[local] Set Elimination Schemes.

(** A row of [courses]: its key, its syllabus column (a text, NULL, or a
    value the driver already parsed) and its other columns.  The table is
    filled from outside and only read here, like [workshops]. *)
Record Course := mkCourse {
  c_id : scalar; c_columns : list (string * scalar); c_syllabus : jtree }.

Record Catalog := mkCatalog {
  courses : list Course;
  workshops : list (list (string * scalar)) }.

(** [course.syllabus && typeof course.syllabus === "string"], line 105. *)
Definition text_to_parse (v : jtree) : option string :=
  match v with
  | JLeaf (JStr s) => if truthy (JStr s) then Some s else None
  | _ => None
  end.

Definition with_syllabus (v : jtree) (c : Course) : Course :=
  mkCourse (c_id c) (c_columns c) v.

Fixpoint insert_desc (t : Testimonial) (l : list Testimonial) : list Testimonial :=
  match l with
  | [] => [t]
  | x :: rest => if t_id x <=? t_id t then t :: l else x :: insert_desc t rest
  end.

(** ORDER BY id DESC *)
Definition order_by_id_desc (l : list Testimonial) : list Testimonial :=
  fold_right insert_desc [] l.

(** A GET handler answers either 200 with the rows it selected ([inl]) or
    an error response ([inr]). *)
Section Reads.
Context {cmp : SqlCompare}.
(** [JSON.parse]: the value of a well-formed text, nothing (a SyntaxError)
    for any other. *)
Variable JSON_parse : string -> option jtree.

(** GET /api/courses, lines 89-96. *)
Definition get_courses (cat : Catalog) : M (list Course + response) :=
  try_catch
    (results <- db_query (fun s => (courses cat, s)) ;;
     ret (inl results))
    (fun err => ret (inr (json 500 [("error", V (JStr "Database error"))]))).

(** GET /api/courses/:id, lines 98-113. *)
Definition get_course (cat : Catalog) (id : string) : M (Course + response) :=
  try_catch
    (results <- db_query
        (fun s => (filter (fun c => sql_eq (JStr id) (c_id c)) (courses cat), s)) ;;
     match results with
     | [] => ret (inr (json 404 [("error", V (JStr "Course not found"))]))
     | course :: _ =>
         let course :=
           match text_to_parse (c_syllabus course) with
           | Some text =>
               match JSON_parse text with
               | Some v => with_syllabus v course
               | None => with_syllabus (JArray []) course
               end
           | None => course
           end in
         ret (inl course)
     end)
    (fun err =>
       console_log "Error fetching course by ID:" ;;;
       ret (inr (json 500 [("error", V (JStr "Internal server error"))]))).

(** GET /api/users, lines 158-165: [{ success: true, users: results }]. *)
Definition get_users : M (list User + response) :=
  try_catch
    (results <- db_query (fun s => (users s, s)) ;;
     ret (inl results))
    (fun err => ret (inr (json 500 [("success", V (JBool false));
                                    ("message", V (JStr "DB error"))]))).

(** GET /api/workshops, lines 242-249: [{ success: true, workshops:
    results }]; the error goes into the body as it is. *)
Definition get_workshops (cat : Catalog)
  : M (list (list (string * scalar)) + response) :=
  try_catch
    (results <- db_query (fun s => (workshops cat, s)) ;;
     ret (inl results))
    (fun err => ret (inr (json 500 [("success", V (JBool false));
                                    ("message", Err err)]))).

(** GET /api/testimonials, lines 303-310. *)
Definition get_testimonials : M (list Testimonial + response) :=
  try_catch
    (results <- db_query
        (fun s => (order_by_id_desc (rows (testimonials s)), s)) ;;
     ret (inl results))
    (fun err => ret (inr (json 500 [("error", Err err)]))).

End Reads.

(** A parser to evaluate on: it knows the empty array and one list. *)
Definition toy_parse (text : string) : option jtree :=
  if (text =? "[]")%string then Some (JArray [])
  else if (text =? "[1,2]")%string
       then Some (JArray [JLeaf (JNum 1); JLeaf (JNum 2)])
       else None.

Definition vision : Course :=
  mkCourse (JStr "3") [("title", JStr "Vision")] (JLeaf (JStr "[1,2]")).

Definition broken : Course :=
  mkCourse (JStr "4") [("title", JStr "Speech")] (JLeaf (JStr "[1,2")).

Definition sample_catalog : Catalog := mkCatalog [vision; broken] [].

(** [l'] is [l] with rows added at the end. *)
Definition extends {A : Type} (l l' : list A) : Prop := exists added, l' = (l ++ added)%list.

(** Every table but [user_otps] has kept its rows, in place and unchanged. *)
Definition rows_kept (s s' : Store) : Prop :=
  extends (rows (enrollments s)) (rows (enrollments s'))
  /\ extends (users s) (users s')
  /\ extends (registrations s) (registrations s')
  /\ extends (rows (mentor_applications s)) (rows (mentor_applications s'))
  /\ extends (rows (testimonials s)) (rows (testimonials s'))
  /\ extends (rows (demo_requests s)) (rows (demo_requests s')).

(** A computation that keeps the rows, from every world. *)
Definition keeps_rows {A : Type} (m : M A) : Prop :=
  forall w : World, rows_kept (db w) (db (snd (m w))).

(** The keys of a table are below its counter. *)
Definition keys_below (t : keyed Testimonial) : Prop :=
  forall x, In x (rows t) -> t_id x < next_id t.

(** A store with two testimonials, the older one stored first. *)
Definition store_with_reviews : Store :=
  mkStore (mkKeyed [] 1) [] [] []
          (mkKeyed [] 1)
          (mkKeyed [mkTestimonial 1 (JStr "Di") (JStr "Student") (JStr "Good") (JNum 0);
                    mkTestimonial 2 (JStr "Cy") (JStr "Alumna") (JStr "Clear") (JNum 1)]
                   3)
          (mkKeyed [] 1).

(** * Properties *)

(** ** Queries and mail *)

Lemma db_query_ok {A} (op : Store -> A * Store) (n : nat) (w : World) :
  db_ok (S n) w = true ->
  db_query op w = (Return (fst (op (db w))), set_db (snd (op (db w))) (tick_db w)).
Proof.
  unfold db_ok, db_query, tick_db.
  destruct w as [s u o c t f m]; simpl.
  destruct f as [|[|] f]; simpl; try discriminate; intros _;
    destruct (op s); reflexivity.
Qed.

Lemma db_ok_tick (n : nat) (w : World) (s : Store) :
  db_ok (S n) w = true -> db_ok n (set_db s (tick_db w)) = true.
Proof.
  unfold db_ok, tick_db.
  destruct w as [s0 u o c t f m]; simpl.
  destruct f as [|b f]; simpl.
  - intros _. destruct n; reflexivity.
  - intros H. apply andb_true_iff in H. apply H.
Qed.

Lemma db_query_fault {A} (op : Store -> A * Store) (w : World) (rest : list bool) :
  db_faults w = true :: rest ->
  db_query op w = (Throw DbError, set_db_faults rest w).
Proof.
  unfold db_query. intros ->. reflexivity.
Qed.

(** [sendMailSafe] returns normally whatever the transport does. *)
Lemma sendMailSafe_returns (to : scalar) (subject html : string) (w : World) :
  sendMailSafe to subject html w = (Return tt, snd (sendMailSafe to subject html w)).
Proof.
  unfold sendMailSafe, try_catch, transport_send, console_log.
  destruct w as [s u o c t f m]; simpl.
  destruct t; simpl; [destruct m as [|[|] m]|]; reflexivity.
Qed.

(** It touches neither the store, nor the uploads, nor the query oracle. *)
Lemma sendMailSafe_frame (to : scalar) (subject html : string) (w : World) :
  let w' := snd (sendMailSafe to subject html w) in
  db w' = db w /\ uploads w' = uploads w /\ db_faults w' = db_faults w.
Proof.
  unfold sendMailSafe, try_catch, transport_send, console_log.
  destruct w as [s u o c t f m]; simpl.
  destruct t; simpl; [destruct m as [|[|] m]|]; repeat split.
Qed.

Lemma bind_return {A B} (m : M A) (k : A -> M B) (w w' : World) (a : A)
  (r : outcome B * World) :
  m w = (Return a, w') -> k a w' = r -> bind m k w = r.
Proof. unfold bind. intros -> <-. reflexivity. Qed.

Lemma bind_throw {A B} (m : M A) (k : A -> M B) (w w' : World) (e : js_error) :
  m w = (Throw e, w') -> bind m k w = (Throw e, w').
Proof. unfold bind. intros ->. reflexivity. Qed.

Lemma try_catch_return {A} (m : M A) (h : js_error -> M A) (w w' : World) (a : A) :
  m w = (Return a, w') -> try_catch m h w = (Return a, w').
Proof. unfold try_catch. intros ->. reflexivity. Qed.

Lemma try_catch_throw {A} (m : M A) (h : js_error -> M A) (w w' : World) (e : js_error)
  (r : outcome A * World) :
  m w = (Throw e, w') -> h e w' = r -> try_catch m h w = r.
Proof. unfold try_catch. intros -> <-. reflexivity. Qed.

(** No binding of [sendMail] exists: the call throws. *)
Lemma call_sendMail (to : scalar) (subject html : string) (w : World) :
  call "sendMail" to subject html w = (Throw (ReferenceError "sendMail"), w).
Proof. reflexivity. Qed.

Lemma call_sendMailSafe (to : scalar) (subject html : string) :
  call "sendMailSafe" to subject html = sendMailSafe to subject html.
Proof. reflexivity. Qed.

Lemma db_tick (w : World) : db (tick_db w) = db w.
Proof. unfold tick_db. destruct (db_faults w); reflexivity. Qed.

Lemma uploads_tick (w : World) : uploads (tick_db w) = uploads w.
Proof. unfold tick_db. destruct (db_faults w); reflexivity. Qed.

(** ** POST /api/enroll *)

(** The run of a validated enroll request whose insert does not fail. *)
Lemma enroll_run {cmp : SqlCompare} (w : World) (req : body) :
  enroll_checked req = true ->
  db_ok 1 w = true ->
  exists w',
    enroll req w =
      (Return (json 201
         [("success", V (JBool true));
          ("message", V (JStr "Enrollment successful, confirmation email sent"));
          ("enrollmentId", V (JNum (next_id (enrollments (db w)))))]), w')
    /\ rows (enrollments (db w')) =
         (rows (enrollments (db w)) ++
           [mkEnrollment (next_id (enrollments (db w)))
              (to_sql (prop "name" req)) (to_sql (prop "email" req))
              (to_sql (prop "phone" req))
              (to_sql (prop_default "status" (JStr "Pending") req))
              (to_sql (prop "courseId" req))])%list.
Proof.
  intros Hc Hdb. unfold enroll_checked in Hc.
  repeat (apply andb_true_iff in Hc; destruct Hc as [Hc ?]).
  unfold enroll.
  rewrite Hc, H, H0, H1. cbn [negb orb].
  eexists. split.
  - apply try_catch_return.
    eapply bind_return; [apply (db_query_ok _ 0 w Hdb)|].
    eapply bind_return; [apply sendMailSafe_returns|].
    eapply bind_return; [apply sendMailSafe_returns|].
    reflexivity.
  - repeat match goal with
           | |- context [db (snd (sendMailSafe ?a ?b ?c ?x))] =>
               rewrite (proj1 (sendMailSafe_frame a b c x))
           end.
    reflexivity.
Qed.

(** C2.  An enroll request that passes the check of line 118 and whose
    insert does not fail is answered 201 with [enrollmentId] the generated
    key of the new row, which is positive.  No hypothesis constrains the
    transport or the mail oracle of the world, and the answer is the same
    under every other transport and oracle. *)
Theorem enroll_created {cmp : SqlCompare} (w : World) (req : body) :
  enroll_checked req = true ->
  db_ok 1 w = true ->
  0 < next_id (enrollments (db w)) ->
  exists (w' : World) (row : Enrollment),
    enroll req w =
      (Return (json 201
         [("success", V (JBool true));
          ("message", V (JStr "Enrollment successful, confirmation email sent"));
          ("enrollmentId", V (JNum (en_id row)))]), w')
    /\ 0 < en_id row
    /\ en_name row = prop "name" req /\ en_email row = prop "email" req
    /\ en_phone row = prop "phone" req /\ en_course_id row = prop "courseId" req
    /\ rows (enrollments (db w')) = (rows (enrollments (db w)) ++ [row])%list
    /\ forall (configured : bool) (sends : list bool),
         fst (enroll req (with_mail configured sends w)) = fst (enroll req w).
Proof.
  intros Hc Hdb Hid.
  assert (Hmail : forall (configured : bool) (sends : list bool),
             fst (enroll req (with_mail configured sends w)) = fst (enroll req w)).
  { intros configured sends.
    destruct (enroll_run w req Hc Hdb) as (w1 & E1 & _).
    destruct (enroll_run (with_mail configured sends w) req Hc Hdb) as (w2 & E2 & _).
    rewrite E1, E2. reflexivity. }
  destruct (enroll_run w req Hc Hdb) as (w' & E & R).
  exists w', (mkEnrollment (next_id (enrollments (db w)))
                (to_sql (prop "name" req)) (to_sql (prop "email" req))
                (to_sql (prop "phone" req))
                (to_sql (prop_default "status" (JStr "Pending") req))
                (to_sql (prop "courseId" req))).
  split; [exact E|]. split; [exact Hid|].
  unfold enroll_checked in Hc.
  repeat (apply andb_true_iff in Hc; destruct Hc as [Hc ?]).
  cbn [en_name en_email en_phone en_course_id].
  repeat split; try exact R; try apply Hmail;
    match goal with
    | Ht : truthy ?v = true |- to_sql ?v = ?v => destruct v; try discriminate Ht; reflexivity
    end.
Qed.

Lemma enroll_created_witness :
  exists (w' : World) (row : Enrollment),
    enroll ann_enroll (failing_mail empty_store) =
      (Return (json 201
         [("success", V (JBool true));
          ("message", V (JStr "Enrollment successful, confirmation email sent"));
          ("enrollmentId", V (JNum (en_id row)))]), w')
    /\ 0 < en_id row
    /\ en_name row = prop "name" ann_enroll /\ en_email row = prop "email" ann_enroll
    /\ en_phone row = prop "phone" ann_enroll
    /\ en_course_id row = prop "courseId" ann_enroll
    /\ rows (enrollments (db w')) =
         (rows (enrollments (db (failing_mail empty_store))) ++ [row])%list
    /\ forall (configured : bool) (sends : list bool),
         fst (enroll ann_enroll (with_mail configured sends (failing_mail empty_store))) =
         fst (enroll ann_enroll (failing_mail empty_store)).
Proof.
  apply (enroll_created (failing_mail empty_store) ann_enroll);
    [reflexivity|reflexivity|simpl; lia].
Defined.

(** C8.  The row an enroll request inserts has status "Pending" when the
    body has no [status], and the given value when it has one. *)
Theorem enroll_status_default {cmp : SqlCompare} (w : World) (req : body) :
  enroll_checked req = true ->
  db_ok 1 w = true ->
  exists row : Enrollment,
    rows (enrollments (db (snd (enroll req w)))) =
      (rows (enrollments (db w)) ++ [row])%list
    /\ (assoc "status" req = None -> en_status row = JStr "Pending")
    /\ (forall v, assoc "status" req = Some v -> v <> JUndefined -> en_status row = v).
Proof.
  intros Hc Hdb.
  destruct (enroll_run w req Hc Hdb) as (w' & E & R).
  rewrite E. cbn [snd]. eexists. split; [exact R|].
  cbn [en_status]. unfold prop_default, prop. split.
  - intros ->. reflexivity.
  - intros v -> Hv. destruct v; try reflexivity. contradiction.
Qed.

Lemma enroll_status_default_witness :
  exists row : Enrollment,
    rows (enrollments (db (snd (enroll ann_enroll (world0 empty_store))))) =
      (rows (enrollments (db (world0 empty_store))) ++ [row])%list
    /\ (assoc "status" ann_enroll = None -> en_status row = JStr "Pending")
    /\ (forall v, assoc "status" ann_enroll = Some v -> v <> JUndefined ->
                  en_status row = v).
Proof.
  apply (enroll_status_default (world0 empty_store) ann_enroll); reflexivity.
Defined.

(** ** Rounding to a double *)

Section Rounding.
Import Double.

(** The shape of a value of 54 bits or more: a 53-bit quotient [q] over
    the quantum [2 ^ s], and a remainder. *)
Lemma split53 (x : Z) :
  53 <= Z.log2 x ->
  let s := Z.log2 x - 52 in
  let q := x / 2 ^ s in
  let r := x mod 2 ^ s in
  0 < 2 ^ s /\ 2 ^ s = 2 * 2 ^ (s - 1) /\ x = q * 2 ^ s + r /\ 0 <= r < 2 ^ s
  /\ 2 ^ 52 <= q < 2 ^ 53
  /\ 2 ^ Z.log2 x = 2 ^ 52 * 2 ^ s.
Proof.
  intros Hb s q r.
  assert (Hx : 0 < x).
  { destruct (Z.lt_trichotomy x 0) as [H|[H|H]]; try assumption.
    - rewrite Z.log2_nonpos in Hb by lia. lia.
    - subst x. simpl in Hb. lia. }
  assert (Hs : 1 <= s) by (unfold s; lia).
  assert (HP : 0 < 2 ^ s) by (apply Z.pow_pos_nonneg; lia).
  assert (Hhalf : 2 ^ s = 2 * 2 ^ (s - 1)).
  { replace s with (1 + (s - 1)) at 1 by lia.
    rewrite Z.pow_add_r by lia. reflexivity. }
  assert (Hpow : 2 ^ Z.log2 x = 2 ^ 52 * 2 ^ s).
  { unfold s. rewrite <- Z.pow_add_r by lia. f_equal. lia. }
  pose proof (Z.log2_spec x Hx) as [Hlo Hhi].
  assert (Hsucc : 2 ^ Z.succ (Z.log2 x) = 2 ^ 53 * 2 ^ s).
  { unfold s. rewrite <- Z.pow_add_r by lia. f_equal. lia. }
  rewrite Hsucc in Hhi. rewrite Hpow in Hlo.
  repeat split; try assumption.
  - unfold q, r. rewrite Z.mul_comm. apply Z.div_mod. lia.
  - apply Z.mod_pos_bound; assumption.
  - apply Z.mod_pos_bound; assumption.
  - unfold q. apply Z.div_le_lower_bound; lia.
  - unfold q. apply Z.div_lt_upper_bound; lia.
Qed.

Lemma round53_small (x : Z) : Z.log2 x < 53 -> round53 x = x.
Proof.
  intros H. unfold round53.
  destruct (Z.ltb_spec (Z.log2 x) 53); [reflexivity|lia].
Qed.

(** Above 53 bits the result is one of the two neighbours on the grid of
    the quantum. *)
Lemma round53_large (x : Z) :
  53 <= Z.log2 x ->
  let s := Z.log2 x - 52 in
  let q := x / 2 ^ s in
  let r := x mod 2 ^ s in
  round53 x =
    if (2 ^ (s - 1) <? r) || ((r =? 2 ^ (s - 1)) && Z.odd q)
    then (q + 1) * 2 ^ s else q * 2 ^ s.
Proof.
  intros H. unfold round53.
  destruct (Z.ltb_spec (Z.log2 x) 53); [lia|reflexivity].
Qed.

Lemma round53_between (x : Z) :
  53 <= Z.log2 x ->
  2 ^ Z.log2 x <= round53 x <= 2 ^ Z.succ (Z.log2 x).
Proof.
  intros H.
  pose proof (split53 x H) as (HP & _ & Hx & Hr & Hq & Hpow).
  assert (Hsucc : 2 ^ Z.succ (Z.log2 x) = 2 ^ 53 * 2 ^ (Z.log2 x - 52)).
  { rewrite <- Z.pow_add_r by lia. f_equal. lia. }
  rewrite Hsucc, Hpow, (round53_large x H).
  destruct (_ || _); nia.
Qed.

Lemma round53_nonneg (x : Z) : 0 <= x -> 0 <= round53 x.
Proof.
  intros H. destruct (Z.lt_ge_cases (Z.log2 x) 53) as [Hb|Hb].
  - rewrite round53_small; assumption.
  - pose proof (round53_between x Hb) as [Hlo _].
    pose proof (Z.pow_pos_nonneg 2 (Z.log2 x) ltac:(lia) ltac:(lia)). lia.
Qed.

(** Rounding to nearest is monotone. *)
Lemma round53_mono (x y : Z) : 0 <= x <= y -> round53 x <= round53 y.
Proof.
  intros [Hx Hxy].
  assert (Hlog : Z.log2 x <= Z.log2 y) by (apply Z.log2_le_mono; assumption).
  destruct (Z.lt_ge_cases (Z.log2 y) 53) as [Hy|Hy].
  - rewrite !round53_small by lia. assumption.
  - pose proof (round53_between y Hy) as [Hylo _].
    destruct (Z.lt_ge_cases (Z.log2 x) 53) as [Hbx|Hbx].
    + rewrite (round53_small x Hbx).
      destruct (Z.eq_dec x 0) as [->|Hx0].
      * apply round53_nonneg. lia.
      * assert (x < 2 ^ 53) by (apply Z.log2_lt_pow2; lia).
        assert (2 ^ 53 <= 2 ^ Z.log2 y) by (apply Z.pow_le_mono_r; lia).
        lia.
    + destruct (Z.eq_dec (Z.log2 x) (Z.log2 y)) as [Heq|Hne].
      * pose proof (split53 x Hbx) as (HP & Hhalf & Ex & Hr & Hq & _).
        pose proof (split53 y Hy) as (_ & _ & Ey & Hry & Hqy & _).
        rewrite (round53_large x Hbx), (round53_large y Hy).
        rewrite <- Heq in *.
        set (P := 2 ^ (Z.log2 x - 52)) in *.
        set (h := 2 ^ (Z.log2 x - 52 - 1)) in *.
        set (qx := x / P) in *. set (rx := x mod P) in *.
        set (qy := y / P) in *. set (ry := y mod P) in *.
        assert (Hqq : qx <= qy) by (apply Z.div_le_mono; lia).
        destruct (Z.eq_dec qx qy) as [Eq|Nq].
        -- rewrite <- Eq in *.
           assert (Hrr : rx <= ry) by nia.
           destruct (Z.ltb_spec h rx), (Z.ltb_spec h ry),
                    (Z.eqb_spec rx h), (Z.eqb_spec ry h),
                    (Z.odd qx); cbn [orb andb]; nia.
        -- assert (qx + 1 <= qy) by lia.
           destruct (_ || _), (_ || _); nia.
      * pose proof (round53_between x Hbx) as [_ Hxhi].
        assert (2 ^ Z.succ (Z.log2 x) <= 2 ^ Z.log2 y)
          by (apply Z.pow_le_mono_r; lia).
        lia.
Qed.

(** The largest double below one. *)
Lemma random_draw_max (r : Z) : random_draw r -> 0 <= r <= one - 2 ^ 1021.
Proof.
  intros [[H0 Hrep] Hlt]. split; [assumption|].
  destruct (Z.lt_ge_cases (Z.log2 r) 53) as [Hb|Hb].
  - destruct (Z.eq_dec r 0) as [->|Hr0]; [vm_compute; discriminate|].
    assert (r < 2 ^ 53) by (apply Z.log2_lt_pow2; lia).
    assert (2 ^ 53 <= one - 2 ^ 1021) by (vm_compute; discriminate).
    lia.
  - pose proof (split53 r Hb) as (HP & Hhalf & Er & Hr & Hq & _).
    rewrite (round53_large r Hb) in Hrep.
    assert (Hs : Z.log2 r - 52 <= 1021).
    { assert (Z.log2 r < 1074) by (apply Z.log2_lt_pow2; [lia|exact Hlt]). lia. }
    assert (HP' : 2 ^ (Z.log2 r - 52) <= 2 ^ 1021)
      by (apply Z.pow_le_mono_r; lia).
    set (P := 2 ^ (Z.log2 r - 52)) in *.
    set (q := r / P) in *. set (rm := r mod P) in *.
    assert (Hone : one = 2 ^ 53 * 2 ^ 1021) by (vm_compute; reflexivity).
    assert (Hqp : r = q * P) by (destruct (_ || _); nia).
    rewrite Hone. nia.
Qed.

(** Line 197 yields an integer of six digits for every draw. *)
Lemma otp_number_range (r : Z) :
  random_draw r -> 100000 <= otp_number r <= 999999.
Proof.
  intros Hr. pose proof (random_draw_max r Hr) as [H0 Hmax].
  unfold otp_number, add, mul_int, floor.
  assert (Hp0 : 0 <= round53 (r * 900000)) by (apply round53_nonneg; lia).
  assert (Hp1 : round53 (r * 900000) <= round53 ((one - 2 ^ 1021) * 900000))
    by (apply round53_mono; lia).
  assert (Epmax : round53 ((one - 2 ^ 1021) * 900000) = 900000 * one - 2 ^ 1041)
    by (vm_compute; reflexivity).
  rewrite Epmax in Hp1.
  assert (Hone : 0 < one) by (vm_compute; reflexivity).
  assert (Hs0 : round53 (of_int 100000) <=
                round53 (of_int 100000 + round53 (r * 900000)))
    by (apply round53_mono; unfold of_int; lia).
  assert (Hs1 : round53 (of_int 100000 + round53 (r * 900000)) <=
                round53 (of_int 100000 + (900000 * one - 2 ^ 1041)))
    by (apply round53_mono; unfold of_int; lia).
  assert (Es0 : round53 (of_int 100000) = 100000 * one) by (vm_compute; reflexivity).
  assert (Es1 : round53 (of_int 100000 + (900000 * one - 2 ^ 1041)) =
                1000000 * one - 2 ^ 1041) by (vm_compute; reflexivity).
  rewrite Es0 in Hs0. rewrite Es1 in Hs1.
  assert (Hq : 0 < 2 ^ 1041 < one) by (vm_compute; split; reflexivity).
  split.
  - apply Z.div_le_lower_bound; lia.
  - assert (round53 (of_int 100000 + round53 (r * 900000)) / one < 1000000)
      by (apply Z.div_lt_upper_bound; lia).
    lia.
Qed.

End Rounding.

(** ** Decimal digits *)

Lemma digit_char_is_digit (d : Z) : 0 <= d < 10 -> is_digit (digit_char d) = true.
Proof.
  intros H.
  assert (E : d = 0 \/ d = 1 \/ d = 2 \/ d = 3 \/ d = 4 \/ d = 5 \/ d = 6
              \/ d = 7 \/ d = 8 \/ d = 9) by lia.
  repeat (destruct E as [->|E]; [reflexivity|]). subst d. reflexivity.
Qed.

(** A number of [k + 1] digits, given more fuel than [k], is written with
    [k + 1] digit characters in front of the accumulator. *)
Lemma dec_digits_spec (k : nat) :
  forall (fuel : nat) (n : Z) (acc : string),
    10 ^ Z.of_nat k <= n < 10 ^ Z.of_nat (S k) ->
    (k < fuel)%nat ->
    String.length (dec_digits fuel n acc) = (S k + String.length acc)%nat
    /\ (all_digits acc = true -> all_digits (dec_digits fuel n acc) = true).
Proof.
  induction k as [|k IH]; intros fuel n acc Hn Hf.
  - destruct fuel as [|f]; [lia|]. cbn [dec_digits].
    change (10 ^ Z.of_nat 0) with 1 in Hn. change (10 ^ Z.of_nat 1) with 10 in Hn.
    assert (E : n / 10 = 0) by (apply Z.div_small; lia).
    rewrite E. cbn [Z.eqb]. split; [reflexivity|].
    intros Ha. cbn [all_digits]. rewrite Ha, digit_char_is_digit; [reflexivity|].
    apply Z.mod_pos_bound; lia.
  - destruct fuel as [|f]; [lia|]. cbn [dec_digits].
    assert (Hk : 10 ^ Z.of_nat (S (S k)) = 10 * 10 ^ Z.of_nat (S k)).
    { rewrite (Nat2Z.inj_succ (S k)), Z.pow_succ_r by lia. reflexivity. }
    assert (Hk' : 10 ^ Z.of_nat (S k) = 10 * 10 ^ Z.of_nat k).
    { rewrite (Nat2Z.inj_succ k), Z.pow_succ_r by lia. reflexivity. }
    assert (Hpos : 0 < 10 ^ Z.of_nat k) by (apply Z.pow_pos_nonneg; lia).
    assert (Hdiv : 10 ^ Z.of_nat k <= n / 10 < 10 ^ Z.of_nat (S k)).
    { split.
      - apply Z.div_le_lower_bound; lia.
      - apply Z.div_lt_upper_bound; lia. }
    destruct (Z.eqb_spec (n / 10) 0) as [E|_]; [lia|].
    destruct (IH f (n / 10) (String (digit_char (n mod 10)) acc) Hdiv ltac:(lia))
      as [Hlen Hdig].
    split.
    + rewrite Hlen. cbn [String.length]. lia.
    + intros Ha. apply Hdig. cbn [all_digits].
      rewrite Ha, digit_char_is_digit; [reflexivity|].
      apply Z.mod_pos_bound; lia.
Qed.

Lemma six_digits (n : Z) :
  100000 <= n <= 999999 ->
  String.length (Z_to_string n) = 6%nat /\ all_digits (Z_to_string n) = true.
Proof.
  intros H. unfold Z_to_string.
  destruct (Z.ltb_spec n 0) as [Hneg|_]; [lia|].
  assert (Hlog : 16 <= Z.log2 n).
  { change 16 with (Z.log2 65536). apply Z.log2_le_mono. lia. }
  destruct (dec_digits_spec 5 (S (Z.to_nat (Z.log2 n))) n "") as [Hlen Hdig].
  - change (10 ^ Z.of_nat 5) with 100000. change (10 ^ Z.of_nat 6) with 1000000. lia.
  - lia.
  - split; [exact Hlen|]. apply Hdig. reflexivity.
Qed.

(** ** POST /api/login *)

Lemma filter_nonempty {A} (f : A -> bool) (l : list A) (a : A) :
  In a l -> f a = true -> filter f l <> [].
Proof.
  intros Hin Hf E.
  assert (Hin' : In a (filter f l)) by (apply filter_In; split; assumption).
  rewrite E in Hin'. exact Hin'.
Qed.

(** The run of a login request with the credentials of a stored user: the
    code is stored, then the call of [sendMail] throws and the handler
    answers 500. *)
Lemma login_run {cmp : SqlCompare} (w : World) (req : body) (now rnd : Z) (u : User) :
  In u (users (db w)) ->
  sql_eq (to_sql (prop "email" req)) (u_email u) = true ->
  sql_eq (to_sql (prop "password" req)) (u_password u) = true ->
  db_ok 2 w = true ->
  exists w',
    login now rnd req w =
      (Return (json 500 [("message", V (JStr "Server error"))]), w')
    /\ user_otps (db w') =
         (user_otps (db w) ++
            [mkOtp (to_sql (prop "email" req)) (JStr (generate_otp rnd))
                   (now + 10 * 60 * 1000)])%list.
Proof.
  intros Hin He Hp Hdb.
  assert (Hne : filter (fun u => sql_eq (to_sql (prop "email" req)) (u_email u)
                        && sql_eq (to_sql (prop "password" req)) (u_password u))
                       (users (db w)) <> []).
  { apply (filter_nonempty _ _ u Hin). rewrite He, Hp. reflexivity. }
  unfold login. eexists. split.
  - eapply try_catch_throw.
    + eapply bind_return; [apply (db_query_ok _ 1 w Hdb)|].
      unfold select_users_by_credentials. cbn [fst snd].
      destruct (filter _ (users (db w))) as [|user rest]; [contradiction|].
      eapply bind_return.
      { apply (db_query_ok _ 0). apply db_ok_tick. exact Hdb. }
      eapply bind_throw. apply call_sendMail.
    + reflexivity.
  - reflexivity.
Qed.

(** C5.  A login with the credentials of a stored user stores a code that
    is the six decimal digits of a number from 100000 to 999999, with the
    expiry [Date.now()] plus ten minutes. *)
Theorem login_stores_six_digit_code {cmp : SqlCompare}
  (w : World) (req : body) (now rnd : Z) (u : User) :
  Double.random_draw rnd ->
  In u (users (db w)) ->
  sql_eq (to_sql (prop "email" req)) (u_email u) = true ->
  sql_eq (to_sql (prop "password" req)) (u_password u) = true ->
  db_ok 2 w = true ->
  exists code : Z,
    100000 <= code <= 999999
    /\ String.length (Z_to_string code) = 6%nat
    /\ all_digits (Z_to_string code) = true
    /\ user_otps (db (snd (login now rnd req w))) =
         (user_otps (db w) ++
            [mkOtp (to_sql (prop "email" req)) (JStr (Z_to_string code))
                   (now + 10 * 60 * 1000)])%list.
Proof.
  intros Hr Hin He Hp Hdb.
  destruct (login_run w req now rnd u Hin He Hp Hdb) as (w' & E & R).
  pose proof (otp_number_range rnd Hr) as Hrange.
  destruct (six_digits _ Hrange) as [Hlen Hdig].
  exists (otp_number rnd). rewrite E. cbn [snd].
  repeat split; try assumption; try apply Hrange.
Qed.

Lemma login_stores_six_digit_code_witness :
  exists code : Z,
    100000 <= code <= 999999
    /\ String.length (Z_to_string code) = 6%nat
    /\ all_digits (Z_to_string code) = true
    /\ user_otps (db (snd (login 1700000000000 half_draw ann_login
                                 (world0 store_with_ann)))) =
         (user_otps (db (world0 store_with_ann)) ++
            [mkOtp (to_sql (prop "email" ann_login)) (JStr (Z_to_string code))
                   (1700000000000 + 10 * 60 * 1000)])%list.
Proof.
  apply (login_stores_six_digit_code (world0 store_with_ann) ann_login
           1700000000000 half_draw ann).
  - repeat split; vm_compute; try reflexivity; discriminate.
  - simpl. left. reflexivity.
  - reflexivity.
  - reflexivity.
  - reflexivity.
Defined.

(** ** POST /api/verify-otp *)

(** A verification that finds a live row, with the store available. *)
Lemma verify_otp_accepts {cmp : SqlCompare} (n : nat) (w : World) (req : body) (now : Z) :
  filter (otp_live now (prop "email" req) (prop "otp" req)) (user_otps (db w)) <> [] ->
  db_ok (3 + n) w = true ->
  exists w',
    verify_otp now req w =
      (Return (json 200
         [("message", V (JStr "Login successful"));
          ("token", V (JStr "FAKE-JWT-TOKEN"));
          ("user", match fst (select_users_by_email (prop "email" req) (db w)) with
                   | [] => V JUndefined
                   | u :: _ => user_object u
                   end)]), w')
    /\ db w' = snd (delete_otps (prop "email" req) (db w))
    /\ db_ok n w' = true.
Proof.
  intros Hne Hdb. unfold verify_otp. eexists. split; [|split].
  - apply try_catch_return.
    eapply bind_return; [apply (db_query_ok _ (2 + n) w Hdb)|].
    unfold select_live_otps. cbn [fst snd].
    destruct (filter _ (user_otps (db w))) as [|o rest]; [contradiction|].
    eapply bind_return.
    { apply (db_query_ok _ (1 + n)). apply db_ok_tick. exact Hdb. }
    eapply bind_return.
    { apply (db_query_ok _ n). apply db_ok_tick. apply db_ok_tick. exact Hdb. }
    reflexivity.
  - reflexivity.
  - do 3 apply db_ok_tick. exact Hdb.
Qed.

(** A verification that finds no live row. *)
Lemma verify_otp_rejects {cmp : SqlCompare} (w : World) (req : body) (now : Z) :
  filter (otp_live now (prop "email" req) (prop "otp" req)) (user_otps (db w)) = [] ->
  db_ok 1 w = true ->
  exists w',
    verify_otp now req w =
      (Return (json 400 [("message", V (JStr "Invalid or expired OTP"))]), w')
    /\ db w' = db w.
Proof.
  intros He Hdb. unfold verify_otp. eexists. split.
  - apply try_catch_return.
    eapply bind_return; [apply (db_query_ok _ 0 w Hdb)|].
    unfold select_live_otps. cbn [fst snd]. rewrite He. reflexivity.
  - reflexivity.
Qed.

Lemma filter_empty {A} (f : A -> bool) (l : list A) :
  (forall a, In a l -> f a = false) -> filter f l = [].
Proof.
  induction l as [|a l IH]; intros H; [reflexivity|].
  cbn [filter]. rewrite (H a (or_introl eq_refl)).
  apply IH. intros b Hb. apply H. right. exact Hb.
Qed.

(** C3.  With a stored row that matches the request's email and code and
    has not expired, the verification succeeds and leaves no row for that
    email, so that the same request is answered 400 from then on. *)
Theorem verify_otp_once {cmp : SqlCompare}
  (w : World) (req : body) (now : Z) (row : Otp) :
  In row (user_otps (db w)) ->
  sql_eq (to_sql (prop "email" req)) (o_email row) = true ->
  sql_eq (to_sql (prop "otp" req)) (o_otp row) = true ->
  now < o_expires_at row ->
  db_ok 4 w = true ->
  exists (w1 : World) (user : jsval),
    verify_otp now req w =
      (Return (json 200 [("message", V (JStr "Login successful"));
                         ("token", V (JStr "FAKE-JWT-TOKEN"));
                         ("user", user)]), w1)
    /\ (forall o, In o (user_otps (db w1)) <->
                  In o (user_otps (db w))
                  /\ sql_eq (to_sql (prop "email" req)) (o_email o) = false)
    /\ forall later : Z, exists w2 : World,
         verify_otp later req w1 =
           (Return (json 400 [("message", V (JStr "Invalid or expired OTP"))]), w2)
         /\ db w2 = db w1.
Proof.
  intros Hin He Ho Hlive Hdb.
  assert (Hne : filter (otp_live now (prop "email" req) (prop "otp" req))
                       (user_otps (db w)) <> []).
  { apply (filter_nonempty _ _ row Hin). unfold otp_live. rewrite He, Ho.
    cbn [andb]. apply Z.ltb_lt. exact Hlive. }
  destruct (verify_otp_accepts 1 w req now Hne Hdb) as (w1 & E & D & Hok).
  exists w1. eexists. split; [exact E|].
  assert (Hrows : forall o, In o (user_otps (db w1)) <->
                    In o (user_otps (db w))
                    /\ sql_eq (to_sql (prop "email" req)) (o_email o) = false).
  { intros o. rewrite D. unfold delete_otps. cbn [snd user_otps].
    rewrite filter_In, negb_true_iff. reflexivity. }
  split; [exact Hrows|].
  intros later. apply verify_otp_rejects; [|exact Hok].
  apply filter_empty. intros o Hino. apply Hrows in Hino as [_ Hf].
  unfold otp_live. rewrite Hf. reflexivity.
Qed.

Lemma verify_otp_once_witness :
  exists (w1 : World) (user : jsval),
    verify_otp 100 ann_verify (world0 store_with_code) =
      (Return (json 200 [("message", V (JStr "Login successful"));
                         ("token", V (JStr "FAKE-JWT-TOKEN"));
                         ("user", user)]), w1)
    /\ (forall o, In o (user_otps (db w1)) <->
                  In o (user_otps (db (world0 store_with_code)))
                  /\ sql_eq (to_sql (prop "email" ann_verify)) (o_email o) = false)
    /\ forall later : Z, exists w2 : World,
         verify_otp later ann_verify w1 =
           (Return (json 400 [("message", V (JStr "Invalid or expired OTP"))]), w2)
         /\ db w2 = db w1.
Proof.
  apply (verify_otp_once (world0 store_with_code) ann_verify 100 stale_code).
  - simpl. left. reflexivity.
  - reflexivity.
  - reflexivity.
  - simpl. lia.
  - reflexivity.
Defined.

(** C4, as the code has it.  When every stored row that matches the
    request's email and code has expired, the verification is answered 400
    and the store is left as it was. *)
Theorem verify_otp_expired {cmp : SqlCompare} (w : World) (req : body) (now : Z) :
  (forall o, In o (user_otps (db w)) ->
             sql_eq (to_sql (prop "email" req)) (o_email o) = true ->
             sql_eq (to_sql (prop "otp" req)) (o_otp o) = true ->
             o_expires_at o <= now) ->
  db_ok 1 w = true ->
  exists w' : World,
    verify_otp now req w =
      (Return (json 400 [("message", V (JStr "Invalid or expired OTP"))]), w')
    /\ db w' = db w.
Proof.
  intros Hexp Hdb. apply verify_otp_rejects; [|exact Hdb].
  apply filter_empty. intros o Hin. unfold otp_live.
  destruct (sql_eq (to_sql (prop "email" req)) (o_email o)) eqn:He; [|reflexivity].
  destruct (sql_eq (to_sql (prop "otp" req)) (o_otp o)) eqn:Ho; [|reflexivity].
  cbn [andb]. apply Z.ltb_ge. apply Hexp; assumption.
Qed.

Lemma verify_otp_expired_witness :
  exists w' : World,
    verify_otp 600000 ann_verify (world0 store_with_code) =
      (Return (json 400 [("message", V (JStr "Invalid or expired OTP"))]), w')
    /\ db w' = db (world0 store_with_code).
Proof.
  apply (verify_otp_expired (world0 store_with_code) ann_verify 600000).
  - simpl. intros o [<-|[]] _ _. simpl. lia.
  - reflexivity.
Defined.

(** C4, as stated, fails: after two logins that drew the same code, the
    first row has expired at 800000 while the second has not, and a
    verification with that email and code is answered 200 and deletes both
    rows. *)
Lemma expired_code_still_accepted :
  In stale_code (user_otps (db after_two_logins))
  /\ sql_eq (to_sql (prop "email" ann_verify)) (o_email stale_code) = true
  /\ sql_eq (to_sql (prop "otp" ann_verify)) (o_otp stale_code) = true
  /\ o_expires_at stale_code <= 800000
  /\ db_ok 4 after_two_logins = true
  /\ fst (verify_otp 800000 ann_verify after_two_logins) =
       Return (json 200 [("message", V (JStr "Login successful"));
                         ("token", V (JStr "FAKE-JWT-TOKEN"));
                         ("user", user_object ann)])
  /\ user_otps (db after_two_logins) =
       [stale_code; mkOtp (JStr "ann@example.org") (JStr "550000") 1300000]
  /\ user_otps (db (snd (verify_otp 800000 ann_verify after_two_logins))) = [].
Proof.
  assert (E : user_otps (db after_two_logins) =
              [stale_code; mkOtp (JStr "ann@example.org") (JStr "550000") 1300000])
    by (vm_compute; reflexivity).
  split; [rewrite E; left; reflexivity|].
  split; [reflexivity|]. split; [reflexivity|].
  split; [vm_compute; discriminate|].
  split; [reflexivity|].
  split; [vm_compute; reflexivity|].
  split; [exact E|].
  vm_compute. reflexivity.
Qed.

(** C9.  The [user] field of a successful verify-otp response is the
    first row that SELECT * FROM users WHERE email = ? returns, whole, its
    password column included. *)
Theorem verify_otp_returns_user_row {cmp : SqlCompare}
  (w w' : World) (req : body) (now : Z) (resp : response) (u : User)
  (others : list User) :
  verify_otp now req w = (Return resp, w') ->
  status resp = 200 ->
  fst (select_users_by_email (prop "email" req) (db w)) = u :: others ->
  field "user" resp =
    Row [("name", u_name u); ("email", u_email u); ("password", u_password u)].
Proof.
  unfold verify_otp, try_catch, bind, db_query, select_live_otps,
    select_users_by_email, delete_otps, ret, console_log.
  destruct w as [s up ob con tr f m]. cbn [db db_faults fst snd].
  intros H Hs Hu.
  destruct f as [|[|] [|[|] [|[|] f]]]; cbn in H;
    destruct (filter (otp_live now (prop "email" req) (prop "otp" req)) (user_otps s))
      as [|o live];
    cbn in H; try rewrite Hu in H;
    apply (f_equal fst) in H; cbn [fst] in H; injection H; intros Hr;
    rewrite <- Hr in Hs |- *; cbn in Hs; try discriminate; reflexivity.
Qed.

Lemma verify_otp_returns_user_row_witness :
  field "user"
    (json 200 [("message", V (JStr "Login successful"));
               ("token", V (JStr "FAKE-JWT-TOKEN"));
               ("user", user_object ann)]) =
    Row [("name", JStr "Ann"); ("email", JStr "ann@example.org");
         ("password", JStr "hunter2")].
Proof.
  apply (verify_otp_returns_user_row (world0 store_with_code)
           (snd (verify_otp 100 ann_verify (world0 store_with_code)))
           ann_verify 100 _ ann []); reflexivity.
Defined.

(** ** Uploads and POST /api/mentor-apply *)

Lemma includes_In (l : list string) (s : string) : includes l s = true <-> In s l.
Proof.
  unfold includes. rewrite existsb_exists. split.
  - intros (x & Hin & E). apply String.eqb_eq in E. subst x. exact Hin.
  - intros Hin. exists s. split; [exact Hin|apply String.eqb_refl].
Qed.

Lemma strip_prefix_app (p s : string) : strip_prefix p (p ++ s) = Some s.
Proof.
  induction p as [|a p IH]; [destruct s; reflexivity|].
  cbn [append strip_prefix]. rewrite Ascii.eqb_refl. exact IH.
Qed.

Lemma assoc_head {A} (k : string) (v : A) (l : list (string * A)) :
  assoc k ((k, v) :: l) = Some v.
Proof. cbn [assoc]. rewrite String.eqb_refl. reflexivity. Qed.

Lemma under_limit (at_limit : bool) (f : upfile) :
  Z.of_nat (String.length (content f)) < fileSize -> too_large at_limit f = false.
Proof.
  intros H. unfold too_large. destruct at_limit.
  - apply Z.leb_gt. exact H.
  - apply Z.ltb_ge. lia.
Qed.

(** The middleware on a file that passes the filter and the limit: the
    file is on disk when the handler starts, and the store is untouched. *)
Lemma upload_single_stores (at_limit : bool) (now : Z) (req : multipart)
  (f : upfile) (w : World) :
  resume req = Some f ->
  fileFilter f = true ->
  too_large at_limit f = false ->
  upload_single at_limit now req w =
    (Return (Some (Z_to_string now ++ extname (originalname f))),
     set_uploads ((Z_to_string now ++ extname (originalname f), content f) :: uploads w) w).
Proof.
  intros Hf Hok Hsize. unfold upload_single. rewrite Hf, Hok, Hsize. reflexivity.
Qed.

(** C6, as the code has it.  A file whose lower-cased extension is not one
    of the three allowed is stopped by the filter: the request is answered
    by the default error handler with status 500, the handler does not run
    and nothing is stored.  A file with an allowed extension and under the
    size limit, the insert not failing, is answered with a [fileUrl] under
    /uploads that the static mount resolves to the bytes of the file. *)
Theorem mentor_apply_upload_checked (at_limit : bool) (now : Z)
  (req : multipart) (f : upfile) (w : World) :
  resume req = Some f ->
  (~ In (toLowerCase (extname (originalname f))) [".pdf"; ".doc"; ".docx"] ->
   mentor_apply_route at_limit now req w =
     (Return (mkResponse 500 (Html "Internal Server Error")), w))
  /\ (In (toLowerCase (extname (originalname f))) [".pdf"; ".doc"; ".docx"] ->
      Z.of_nat (String.length (content f)) < 10 * 1024 * 1024 ->
      db_ok 1 w = true ->
      exists (w' : World) (row : MentorApplication),
        mentor_apply_route at_limit now req w =
          (Return (json 200
             [("success", V (JBool true));
              ("id", V (JNum (m_id row)));
              ("fileUrl", V (JStr ("/uploads/" ++ m_resume row)))]), w')
        /\ m_resume row = Z_to_string now ++ extname (originalname f)
        /\ static_get ("/uploads/" ++ m_resume row) w' = Some (content f)
        /\ rows (mentor_applications (db w')) =
             (rows (mentor_applications (db w)) ++ [row])%list).
Proof.
  intros Hf. split.
  - intros Hext. unfold mentor_apply_route, upload_single. rewrite Hf.
    destruct (fileFilter f) eqn:Hok.
    + exfalso. apply Hext. apply includes_In. exact Hok.
    + reflexivity.
  - intros Hext Hsize Hdb.
    assert (Hok : fileFilter f = true) by (apply includes_In; exact Hext).
    unfold mentor_apply_route.
    rewrite (upload_single_stores at_limit now req f w Hf Hok
               (under_limit at_limit f Hsize)).
    set (name := Z_to_string now ++ extname (originalname f)).
    set (w1 := set_uploads ((name, content f) :: uploads w) w).
    assert (Hdb1 : db_ok 1 w1 = true) by exact Hdb.
    unfold mentor_apply.
    eexists.
    exists (mkMentorApplication (next_id (mentor_applications (db w)))
              (to_sql (prop "name" (form req))) (to_sql (prop "email" (form req)))
              (to_sql (prop "phone" (form req)))
              (to_sql (prop "expertise" (form req)))
              (to_sql (prop "experience" (form req)))
              (to_sql (prop "message" (form req))) name).
    split; [|split; [reflexivity|split]].
    + apply try_catch_return.
      eapply bind_return; [apply (db_query_ok _ 0 w1 Hdb1)|].
      reflexivity.
    + cbn [m_resume]. unfold static_get. rewrite strip_prefix_app.
      cbn [uploads set_db]. rewrite uploads_tick. apply assoc_head.
    + cbn [db set_db snd]. reflexivity.
Qed.

Lemma mentor_apply_upload_checked_witness :
  mentor_apply_route true 1700000000000 exe_upload (world0 empty_store) =
    (Return (mkResponse 500 (Html "Internal Server Error")), world0 empty_store)
  /\ exists (w' : World) (row : MentorApplication),
       mentor_apply_route false 1700000000000 pdf_upload (world0 empty_store) =
         (Return (json 200
            [("success", V (JBool true));
             ("id", V (JNum (m_id row)));
             ("fileUrl", V (JStr ("/uploads/" ++ m_resume row)))]), w')
       /\ m_resume row = Z_to_string 1700000000000 ++ extname "Resume.PDF"
       /\ static_get ("/uploads/" ++ m_resume row) w' = Some "%PDF-1.7"
       /\ rows (mentor_applications (db w')) =
            (rows (mentor_applications (db (world0 empty_store))) ++ [row])%list.
Proof.
  split.
  - apply (mentor_apply_upload_checked true 1700000000000 exe_upload
             (mkUpfile "virus.exe" "MZ") (world0 empty_store) eq_refl).
    vm_compute. intros [H|[H|[H|[]]]]; discriminate H.
  - apply (mentor_apply_upload_checked false 1700000000000 pdf_upload
             (mkUpfile "Resume.PDF" "%PDF-1.7") (world0 empty_store) eq_refl).
    + vm_compute. left. reflexivity.
    + vm_compute. reflexivity.
    + reflexivity.
Defined.

(** C6, as stated, fails: the upload of "virus.exe" is answered 500, not
    400 (and stores nothing). *)
Lemma exe_upload_answered_500 :
  extname "virus.exe" = ".exe"
  /\ mentor_apply_route true 1700000000000 exe_upload (world0 empty_store) =
       (Return (mkResponse 500 (Html "Internal Server Error")), world0 empty_store)
  /\ status (mkResponse 500 (Html "Internal Server Error")) <> 400.
Proof.
  split; [vm_compute; reflexivity|].
  split; [vm_compute; reflexivity|].
  cbn [status]. lia.
Qed.

(** C10.  The middleware writes the resume before the handler runs; when
    the insert then fails, the handler answers 500, no row is inserted and
    the file stays in the uploads directory. *)
Theorem mentor_apply_orphan_file (at_limit : bool) (now : Z) (req : multipart)
  (f : upfile) (w : World) (rest : list bool) :
  resume req = Some f ->
  fileFilter f = true ->
  too_large at_limit f = false ->
  db_faults w = true :: rest ->
  let name := Z_to_string now ++ extname (originalname f) in
  exists w1 w' : World,
    upload_single at_limit now req w = (Return (Some name), w1)
    /\ assoc name (uploads w1) = Some (content f)
    /\ db w1 = db w
    /\ mentor_apply (form req) (Some name) w1 =
         (Return (json 500 [("success", V (JBool false));
                            ("message", V (JStr "DB insert failed"))]), w')
    /\ mentor_apply_route at_limit now req w =
         (Return (json 500 [("success", V (JBool false));
                            ("message", V (JStr "DB insert failed"))]), w')
    /\ db w' = db w
    /\ assoc name (uploads w') = Some (content f)
    /\ static_get ("/uploads/" ++ name) w' = Some (content f).
Proof.
  intros Hf Hok Hsize Hfault name.
  pose proof (upload_single_stores at_limit now req f w Hf Hok Hsize) as Hup.
  fold name in Hup.
  set (w1 := set_uploads ((name, content f) :: uploads w) w) in *.
  assert (Hrun : mentor_apply (form req) (Some name) w1 =
            (Return (json 500 [("success", V (JBool false));
                               ("message", V (JStr "DB insert failed"))]),
             set_console ("error" :: console w1) (set_db_faults rest w1))).
  { unfold mentor_apply. eapply try_catch_throw.
    - eapply bind_throw. apply db_query_fault. exact Hfault.
    - reflexivity. }
  exists w1. eexists.
  split; [exact Hup|]. split; [apply assoc_head|]. split; [reflexivity|].
  split; [exact Hrun|].
  split; [unfold mentor_apply_route; rewrite Hup; exact Hrun|].
  split; [reflexivity|].
  split; [apply assoc_head|].
  unfold static_get. rewrite strip_prefix_app. apply assoc_head.
Qed.

Lemma mentor_apply_orphan_file_witness :
  let name := Z_to_string 1700000000000 ++ extname "Resume.PDF" in
  exists w1 w' : World,
    upload_single true 1700000000000 pdf_upload (db_down empty_store) =
      (Return (Some name), w1)
    /\ assoc name (uploads w1) = Some "%PDF-1.7"
    /\ db w1 = db (db_down empty_store)
    /\ mentor_apply (form pdf_upload) (Some name) w1 =
         (Return (json 500 [("success", V (JBool false));
                            ("message", V (JStr "DB insert failed"))]), w')
    /\ mentor_apply_route true 1700000000000 pdf_upload (db_down empty_store) =
         (Return (json 500 [("success", V (JBool false));
                            ("message", V (JStr "DB insert failed"))]), w')
    /\ db w' = db (db_down empty_store)
    /\ assoc name (uploads w') = Some "%PDF-1.7"
    /\ static_get ("/uploads/" ++ name) w' = Some "%PDF-1.7".
Proof.
  apply (mentor_apply_orphan_file true 1700000000000 pdf_upload
           (mkUpfile "Resume.PDF" "%PDF-1.7") (db_down empty_store) []);
    reflexivity.
Defined.

(** ** POST /api/register, /api/demo-request, /api/signup, /api/testimonials *)

(** A validated registration whose insert does not fail: the row is
    inserted, the call of [sendMail] throws, and the answer is 500. *)
Lemma register_run {cmp : SqlCompare} (w : World) (req : body) :
  register_checked req = true ->
  db_ok 1 w = true ->
  exists w',
    register req w =
      (Return (json 500 [("success", V (JBool false));
                         ("message", V (JStr "DB error"))]), w')
    /\ registrations (db w') =
         (registrations (db w) ++
            [mkRegistration (to_sql (prop "name" req)) (to_sql (prop "email" req))
               (to_sql (prop "phone" req)) (to_sql (prop "currentStatus" req))
               (to_sql (prop "workshop" req))])%list
    /\ outbox w' = outbox w.
Proof.
  intros Hc Hdb. unfold register_checked in Hc.
  repeat (apply andb_true_iff in Hc; destruct Hc as [Hc ?]).
  unfold register. rewrite Hc, H, H0, H1. cbn [negb orb].
  eexists. split; [|split].
  - eapply try_catch_throw.
    + eapply bind_return; [apply (db_query_ok _ 0 w Hdb)|].
      eapply bind_throw. apply call_sendMail.
    + reflexivity.
  - reflexivity.
  - cbn [outbox set_console set_db]. unfold tick_db.
    destruct (db_faults w); reflexivity.
Qed.

(** A demo request, whatever its body, whose insert does not fail. *)
Lemma demo_request_run {cmp : SqlCompare} (w : World) (req : body) :
  db_ok 1 w = true ->
  exists w',
    demo_request req w =
      (Return (json 500 [("error", V (JStr "Database insert failed"))]), w')
    /\ rows (demo_requests (db w')) =
         (rows (demo_requests (db w)) ++
            [mkDemoRequest (next_id (demo_requests (db w)))
               (to_sql (prop "name" req)) (to_sql (prop "email" req))
               (to_sql (prop "phone" req)) (to_sql (prop "status" req))
               (to_sql (prop "course" req)) (to_sql (prop "message" req))])%list
    /\ outbox w' = outbox w.
Proof.
  intros Hdb. unfold demo_request.
  eexists. split; [|split].
  - eapply try_catch_throw.
    + eapply bind_return; [apply (db_query_ok _ 0 w Hdb)|].
      eapply bind_throw. apply call_sendMail.
    + reflexivity.
  - reflexivity.
  - cbn [outbox set_console set_db]. unfold tick_db.
    destruct (db_faults w); reflexivity.
Qed.

(** A testimonial, whatever its body, whose insert does not fail. *)
Lemma post_testimonial_run {cmp : SqlCompare} (w : World) (req : body) :
  db_ok 1 w = true ->
  exists w',
    post_testimonial req w =
      (Return (json 200 [("message", V (JStr "Testimonial added successfully"));
                         ("id", V (JNum (next_id (testimonials (db w)))))]), w')
    /\ rows (testimonials (db w')) =
         (rows (testimonials (db w)) ++
            [mkTestimonial (next_id (testimonials (db w)))
               (to_sql (prop "name" req)) (to_sql (prop "role" req))
               (to_sql (prop "review" req)) (to_sql (prop "verified" req))])%list.
Proof.
  intros Hdb. unfold post_testimonial.
  eexists. split.
  - apply try_catch_return.
    eapply bind_return; [apply (db_query_ok _ 0 w Hdb)|]. reflexivity.
  - cbn [db set_db snd]. reflexivity.
Qed.

(** A signup, whatever its body, when no stored user has its email. *)
Lemma signup_run {cmp : SqlCompare} (w : World) (req : body) :
  fst (select_users_by_email (prop "email" req) (db w)) = [] ->
  db_ok 2 w = true ->
  exists w',
    signup req w = (Return (json 200 [("message", V (JStr "Signup successful!"))]), w')
    /\ users (db w') =
         (users (db w) ++
            [mkUser (to_sql (prop "name" req)) (to_sql (prop "email" req))
                    (to_sql (prop "password" req))])%list.
Proof.
  intros Hnone Hdb. unfold signup.
  eexists. split.
  - apply try_catch_return.
    eapply bind_return; [apply (db_query_ok _ 1 w Hdb)|].
    rewrite Hnone. cbn [List.length Nat.ltb Nat.leb].
    eapply bind_return.
    { apply (db_query_ok _ 0). apply db_ok_tick. exact Hdb. }
    reflexivity.
  - reflexivity.
Qed.

Lemma falsy_field (req : body) (k : string) (ks : list string) :
  In k ks -> truthy (prop k req) = false ->
  forallb (fun k => truthy (prop k req)) ks = false.
Proof.
  intros Hin Hf. destruct (forallb _ ks) eqn:E; [|reflexivity].
  rewrite forallb_forall in E. rewrite (E k Hin) in Hf. discriminate.
Qed.

(** A query either runs its statement or throws and leaves the store. *)
Lemma db_query_cases {A} (op : Store -> A * Store) (w : World) :
  (exists w', db_query op w = (Return (fst (op (db w))), w')
              /\ db w' = snd (op (db w)))
  \/ (exists w', db_query op w = (Throw DbError, w') /\ db w' = db w).
Proof.
  unfold db_query. destruct w as [s u o c t f m]. cbn [db db_faults].
  destruct f as [|[|] f].
  - left. destruct (op s) as [a s'] eqn:E. eexists. split; reflexivity.
  - right. eexists. split; reflexivity.
  - left. cbn [db set_db_faults]. destruct (op s) as [a s'] eqn:E.
    eexists. split; reflexivity.
Qed.

(** Signup answers 400 for one reason only: a stored user has the email. *)
Lemma signup_400_is_conflict {cmp : SqlCompare} (w : World) (req : body)
  (resp : response) :
  fst (signup req w) = Return resp ->
  status resp = 400 ->
  fst (select_users_by_email (prop "email" req) (db w)) <> [].
Proof.
  unfold signup, try_catch, bind. intros H Hs.
  destruct (db_query_cases (select_users_by_email (prop "email" req)) w)
    as [(w1 & E1 & D1)|(w1 & E1 & _)]; rewrite E1 in H.
  - destruct (fst (select_users_by_email (prop "email" req) (db w))) as [|u us];
      [|discriminate].
    cbn [List.length Nat.ltb Nat.leb] in H.
    destruct (db_query_cases (insert_user (prop "name" req) (prop "email" req)
                                (prop "password" req)) w1)
      as [(w2 & E2 & _)|(w2 & E2 & _)]; rewrite E2 in H; cbn in H;
      injection H; intros Hr; rewrite <- Hr in Hs; cbn in Hs; discriminate.
  - cbn in H. injection H; intros Hr. rewrite <- Hr in Hs. cbn in Hs. discriminate.
Qed.

(** With a file, mentor-apply answers 200 or 500, whatever the body. *)
Lemma mentor_apply_with_file {cmp : SqlCompare} (w : World) (req : body)
  (file : string) :
  exists resp : response,
    fst (mentor_apply req (Some file) w) = Return resp /\ status resp <> 400.
Proof.
  unfold mentor_apply, try_catch, bind.
  destruct (db_query_cases
              (insert_mentor_application (prop "name" req) (prop "email" req)
                 (prop "phone" req) (prop "expertise" req) (prop "experience" req)
                 (prop "message" req) file) w)
    as [(w1 & E1 & _)|(w1 & E1 & _)]; rewrite E1;
    eexists; (split; [reflexivity|cbn; discriminate]).
Qed.

Lemma post_testimonial_not_400 {cmp : SqlCompare} (w : World) (req : body) :
  exists resp : response,
    fst (post_testimonial req w) = Return resp /\ status resp <> 400.
Proof.
  unfold post_testimonial, try_catch, bind.
  destruct (db_query_cases
              (insert_testimonial (prop "name" req) (prop "role" req)
                 (prop "review" req) (prop "verified" req)) w)
    as [(w1 & E1 & _)|(w1 & E1 & _)]; rewrite E1;
    eexists; (split; [reflexivity|cbn; discriminate]).
Qed.

Lemma demo_request_not_400 {cmp : SqlCompare} (w : World) (req : body) :
  exists resp : response,
    fst (demo_request req w) = Return resp /\ status resp <> 400.
Proof.
  unfold demo_request, try_catch, bind.
  destruct (db_query_cases
              (insert_demo_request (prop "name" req) (prop "email" req)
                 (prop "phone" req) (prop "status" req) (prop "course" req)
                 (prop "message" req)) w)
    as [(w1 & E1 & _)|(w1 & E1 & _)]; rewrite E1.
  - rewrite call_sendMail. eexists. split; [reflexivity|cbn; discriminate].
  - eexists. split; [reflexivity|cbn; discriminate].
Qed.

(** C7, as the code has it.  Enroll and register answer 400 with a message
    and run no statement when one of their checked fields is missing or
    falsy.  Mentor-apply answers 400 when there is no file, and never when
    there is one: its insert then runs for every body.  Signup,
    testimonials and demo-request check no field: signup answers 400 only
    when a stored user has the email, and otherwise inserts for every body;
    testimonials and demo-request never answer 400 and insert for every
    body.  Missing fields go to the store as NULL. *)
Theorem required_fields_checked {cmp : SqlCompare} (w : World) (req : body) :
  (forall k, In k ["name"; "email"; "phone"; "courseId"] ->
             truthy (prop k req) = false ->
             enroll req w = (Return all_fields_required, w))
  /\ (forall k, In k ["name"; "email"; "phone"; "workshop"] ->
                truthy (prop k req) = false ->
                register req w = (Return all_fields_required, w))
  /\ mentor_apply req None w =
       (Return (json 400 [("success", V (JBool false));
                          ("message", V (JStr "Resume is required"))]), w)
  /\ (forall file : string,
      (exists resp : response,
         fst (mentor_apply req (Some file) w) = Return resp /\ status resp <> 400)
      /\ (db_ok 1 w = true ->
          rows (mentor_applications (db (snd (mentor_apply req (Some file) w)))) =
            (rows (mentor_applications (db w)) ++
               [mkMentorApplication (next_id (mentor_applications (db w)))
                  (to_sql (prop "name" req)) (to_sql (prop "email" req))
                  (to_sql (prop "phone" req)) (to_sql (prop "expertise" req))
                  (to_sql (prop "experience" req)) (to_sql (prop "message" req))
                  file])%list))
  /\ (forall resp : response,
      fst (signup req w) = Return resp -> status resp = 400 ->
      fst (select_users_by_email (prop "email" req) (db w)) <> [])
  /\ (db_ok 2 w = true ->
      fst (select_users_by_email (prop "email" req) (db w)) = [] ->
      fst (signup req w) = Return (json 200 [("message", V (JStr "Signup successful!"))])
      /\ users (db (snd (signup req w))) =
           (users (db w) ++
              [mkUser (to_sql (prop "name" req)) (to_sql (prop "email" req))
                      (to_sql (prop "password" req))])%list)
  /\ (exists resp : response,
        fst (post_testimonial req w) = Return resp /\ status resp <> 400)
  /\ (db_ok 1 w = true ->
      rows (testimonials (db (snd (post_testimonial req w)))) =
        (rows (testimonials (db w)) ++
           [mkTestimonial (next_id (testimonials (db w)))
              (to_sql (prop "name" req)) (to_sql (prop "role" req))
              (to_sql (prop "review" req)) (to_sql (prop "verified" req))])%list)
  /\ (exists resp : response,
        fst (demo_request req w) = Return resp /\ status resp <> 400)
  /\ (db_ok 1 w = true ->
      rows (demo_requests (db (snd (demo_request req w)))) =
        (rows (demo_requests (db w)) ++
           [mkDemoRequest (next_id (demo_requests (db w)))
              (to_sql (prop "name" req)) (to_sql (prop "email" req))
              (to_sql (prop "phone" req)) (to_sql (prop "status" req))
              (to_sql (prop "course" req)) (to_sql (prop "message" req))])%list).
Proof.
  repeat match goal with |- _ /\ _ => split end.
  - intros k Hin Hf.
    pose proof (falsy_field req k _ Hin Hf) as E. cbn [forallb] in E.
    rewrite andb_true_r in E. unfold enroll.
    destruct (truthy (prop "name" req)), (truthy (prop "email" req)),
             (truthy (prop "phone" req)), (truthy (prop "courseId" req));
      try discriminate E; reflexivity.
  - intros k Hin Hf.
    pose proof (falsy_field req k _ Hin Hf) as E. cbn [forallb] in E.
    rewrite andb_true_r in E. unfold register.
    destruct (truthy (prop "name" req)), (truthy (prop "email" req)),
             (truthy (prop "phone" req)), (truthy (prop "workshop" req));
      try discriminate E; reflexivity.
  - reflexivity.
  - intros file. split; [apply mentor_apply_with_file|].
    intros Hdb. unfold mentor_apply.
    erewrite try_catch_return.
    2:{ eapply bind_return; [apply (db_query_ok _ 0 w Hdb)|]. reflexivity. }
    reflexivity.
  - intros resp. apply signup_400_is_conflict.
  - intros Hdb Hnone.
    destruct (signup_run w req Hnone Hdb) as (w' & E & R). rewrite E.
    split; [reflexivity|exact R].
  - apply post_testimonial_not_400.
  - intros Hdb.
    destruct (post_testimonial_run w req Hdb) as (w' & E & R). rewrite E. exact R.
  - apply demo_request_not_400.
  - intros Hdb.
    destruct (demo_request_run w req Hdb) as (w' & E & R & _). rewrite E. exact R.
Qed.

Lemma required_fields_checked_witness :
  enroll [("name", JStr "Ann"); ("email", JStr "ann@example.org")]
         (world0 store_with_ann) =
    (Return all_fields_required, world0 store_with_ann)
  /\ register [("name", JStr "Ann"); ("email", JStr "ann@example.org")]
              (world0 store_with_ann) =
       (Return all_fields_required, world0 store_with_ann)
  /\ rows (mentor_applications
             (db (snd (mentor_apply [] (Some "1700000000000.pdf")
                                    (world0 store_with_ann))))) =
       [mkMentorApplication 1 JNull JNull JNull JNull JNull JNull "1700000000000.pdf"]
  /\ (fst (signup [("email", JStr "bo@example.org")] (world0 store_with_ann)) =
        Return (json 200 [("message", V (JStr "Signup successful!"))])
      /\ users (db (snd (signup [("email", JStr "bo@example.org")]
                                (world0 store_with_ann)))) =
           [ann; mkUser JNull (JStr "bo@example.org") JNull])
  /\ fst (select_users_by_email (prop "email" [("email", JStr "ann@example.org")])
                                (db (world0 store_with_ann))) <> []
  /\ rows (testimonials (db (snd (post_testimonial [] (world0 store_with_ann))))) =
       [mkTestimonial 1 JNull JNull JNull JNull]
  /\ rows (demo_requests (db (snd (demo_request [] (world0 store_with_ann))))) =
       [mkDemoRequest 1 JNull JNull JNull JNull JNull JNull].
Proof.
  pose proof (required_fields_checked (world0 store_with_ann)
                [("name", JStr "Ann"); ("email", JStr "ann@example.org")])
    as (He & Hr & _).
  pose proof (required_fields_checked (world0 store_with_ann)
                [("email", JStr "bo@example.org")])
    as (_ & _ & _ & _ & _ & Hs & _).
  pose proof (required_fields_checked (world0 store_with_ann)
                [("email", JStr "ann@example.org")])
    as (_ & _ & _ & _ & Hc & _).
  pose proof (required_fields_checked (world0 store_with_ann) [])
    as (_ & _ & _ & Hm & _ & _ & _ & Ht & _ & Hd).
  split; [apply (He "phone"); [simpl; tauto|reflexivity]|].
  split; [apply (Hr "phone"); [simpl; tauto|reflexivity]|].
  split; [apply (proj2 (Hm "1700000000000.pdf")); reflexivity|].
  split; [apply Hs; reflexivity|].
  split; [apply (Hc (json 400 [("message", V (JStr "User already exists"))]));
          reflexivity|].
  split; [apply Ht; reflexivity|].
  apply Hd; reflexivity.
Defined.

(** C7, as stated, fails: a signup and a testimonial with an empty body are
    not answered 400; their insert runs and stores a row of NULLs.  With the
    store down the answer is 500, not 400 either. *)
Lemma empty_body_not_rejected :
  signup [] (world0 empty_store) =
    (Return (json 200 [("message", V (JStr "Signup successful!"))]),
     world0 (mkStore (mkKeyed [] 1) [mkUser JNull JNull JNull] [] []
                     (mkKeyed [] 1) (mkKeyed [] 1) (mkKeyed [] 1)))
  /\ fst (post_testimonial [] (world0 empty_store)) =
       Return (json 200 [("message", V (JStr "Testimonial added successfully"));
                         ("id", V (JNum 1))])
  /\ rows (testimonials (db (snd (post_testimonial [] (world0 empty_store))))) =
       [mkTestimonial 1 JNull JNull JNull JNull]
  /\ fst (signup [] (db_down empty_store)) =
       Return (json 500 [("message", V (JStr "Server error"))]).
Proof. repeat split. Qed.

(** C1 fails on the code.  With the transport configured and every send
    succeeding, login, register and demo-request perform their insert and
    then answer 500: they call [sendMail], which nothing defines, and the
    ReferenceError lands in the handler's catch.  No mail is handed to the
    transport.  Enroll, which calls [sendMailSafe], answers 201. *)
Theorem notifying_handlers_answer_500 :
  fst (login 0 half_draw ann_login (world0 store_with_ann)) =
    Return (json 500 [("message", V (JStr "Server error"))])
  /\ user_otps (db (snd (login 0 half_draw ann_login (world0 store_with_ann)))) =
       [mkOtp (JStr "ann@example.org") (JStr "550000") 600000]
  /\ fst (register ann_register (world0 empty_store)) =
       Return (json 500 [("success", V (JBool false)); ("message", V (JStr "DB error"))])
  /\ registrations (db (snd (register ann_register (world0 empty_store)))) =
       [mkRegistration (JStr "Ann") (JStr "ann@example.org") (JStr "5550100")
                       (JStr "Student") (JStr "Deep Learning 101")]
  /\ fst (demo_request ann_demo (world0 empty_store)) =
       Return (json 500 [("error", V (JStr "Database insert failed"))])
  /\ rows (demo_requests (db (snd (demo_request ann_demo (world0 empty_store))))) =
       [mkDemoRequest 1 (JStr "Ann") (JStr "ann@example.org") (JStr "5550100")
                      (JStr "Student") (JStr "Vision") (JStr "Evenings please")]
  /\ outbox (snd (login 0 half_draw ann_login (world0 store_with_ann))) = []
  /\ outbox (snd (register ann_register (world0 empty_store))) = []
  /\ outbox (snd (demo_request ann_demo (world0 empty_store))) = []
  /\ status (match fst (enroll ann_enroll (world0 empty_store)) with
             | Return r => r
             | Throw _ => mkResponse 0 (Html "")
             end) = 201.
Proof. repeat split; vm_compute; reflexivity. Qed.

(** * Further properties of the handlers *)

(** ** Signup and login: rejections *)

Lemma signup_conflict {cmp : SqlCompare} (w : World) (req : body) (u : User) :
  In u (users (db w)) ->
  sql_eq (to_sql (prop "email" req)) (u_email u) = true ->
  db_ok 1 w = true ->
  exists w' : World,
    signup req w = (Return (json 400 [("message", V (JStr "User already exists"))]), w')
    /\ db w' = db w.
Proof.
  intros Hin He Hdb.
  pose proof (filter_nonempty (fun u => sql_eq (to_sql (prop "email" req)) (u_email u))
                _ u Hin He) as Hne.
  unfold signup. eexists. split.
  - apply try_catch_return.
    eapply bind_return; [apply (db_query_ok _ 0 w Hdb)|].
    unfold select_users_by_email. cbn [fst snd].
    destruct (filter _ (users (db w))) as [|x xs]; [contradiction|].
    reflexivity.
  - reflexivity.
Qed.

(** Lines 171-172: a signup whose email a stored user already has is
    answered 400 and inserts nothing. *)
Theorem signup_existing_email {cmp : SqlCompare} (w : World) (req : body) (u : User) :
  In u (users (db w)) ->
  sql_eq (to_sql (prop "email" req)) (u_email u) = true ->
  db_ok 1 w = true ->
  exists w' : World,
    signup req w = (Return (json 400 [("message", V (JStr "User already exists"))]), w')
    /\ db w' = db w.
Proof. apply signup_conflict. Qed.

Lemma signup_existing_email_witness :
  exists w' : World,
    signup [("name", JStr "Eve"); ("email", JStr "ann@example.org");
            ("password", JStr "x")] (world0 store_with_ann) =
      (Return (json 400 [("message", V (JStr "User already exists"))]), w')
    /\ db w' = db (world0 store_with_ann).
Proof.
  apply (signup_existing_email (world0 store_with_ann) _ ann).
  - simpl. left. reflexivity.
  - reflexivity.
  - reflexivity.
Defined.

(** Lines 171-179, twice: after a signup that succeeded, a second signup
    with the same email is answered 400, so that one row only was added.
    The email has to be one the store finds equal to itself, which NULL, the
    value of a missing email, is not. *)
Theorem signup_twice {cmp : SqlCompare} (w : World) (req again : body) :
  prop "email" again = prop "email" req ->
  sql_eq (to_sql (prop "email" req)) (to_sql (prop "email" req)) = true ->
  fst (select_users_by_email (prop "email" req) (db w)) = [] ->
  db_ok 3 w = true ->
  exists w1 w2 : World,
    signup req w = (Return (json 200 [("message", V (JStr "Signup successful!"))]), w1)
    /\ signup again w1 =
         (Return (json 400 [("message", V (JStr "User already exists"))]), w2)
    /\ users (db w2) =
         (users (db w) ++
            [mkUser (to_sql (prop "name" req)) (to_sql (prop "email" req))
                    (to_sql (prop "password" req))])%list.
Proof.
  intros Hsame Hrefl Hnone Hdb.
  assert (Hrun : exists w1,
             signup req w =
               (Return (json 200 [("message", V (JStr "Signup successful!"))]), w1)
             /\ db w1 = snd (insert_user (prop "name" req) (prop "email" req)
                               (prop "password" req) (db w))
             /\ db_ok 1 w1 = true).
  { unfold signup. eexists. split; [|split].
    - apply try_catch_return.
      eapply bind_return; [apply (db_query_ok _ 2 w Hdb)|].
      rewrite Hnone. cbn [List.length Nat.ltb Nat.leb].
      eapply bind_return.
      { apply (db_query_ok _ 1). apply db_ok_tick. exact Hdb. }
      reflexivity.
    - reflexivity.
    - do 2 apply db_ok_tick. exact Hdb. }
  destruct Hrun as (w1 & E1 & D1 & Hok1).
  set (row := mkUser (to_sql (prop "name" req)) (to_sql (prop "email" req))
                     (to_sql (prop "password" req))).
  assert (Hin : In row (users (db w1))).
  { rewrite D1. cbn [insert_user snd users]. apply in_or_app. right. left. reflexivity. }
  destruct (signup_conflict w1 again row Hin) as (w2 & E2 & D2).
  - rewrite Hsame. exact Hrefl.
  - exact Hok1.
  - exists w1, w2. split; [exact E1|]. split; [exact E2|].
    rewrite D2, D1. reflexivity.
Qed.

Lemma signup_twice_witness :
  exists w1 w2 : World,
    signup ann_login (world0 empty_store) =
      (Return (json 200 [("message", V (JStr "Signup successful!"))]), w1)
    /\ signup ann_login w1 =
         (Return (json 400 [("message", V (JStr "User already exists"))]), w2)
    /\ users (db w2) =
         (users (db (world0 empty_store)) ++
            [mkUser (to_sql (prop "name" ann_login)) (to_sql (prop "email" ann_login))
                    (to_sql (prop "password" ann_login))])%list.
Proof.
  apply (signup_twice (world0 empty_store) ann_login ann_login); reflexivity.
Defined.

(** Lines 191-192: a login that no stored user matches in both email and
    password is answered 400; no code is stored and no mail is sent. *)
Theorem login_wrong_credentials {cmp : SqlCompare} (w : World) (req : body)
  (now rnd : Z) :
  (forall u, In u (users (db w)) ->
             sql_eq (to_sql (prop "email" req)) (u_email u)
             && sql_eq (to_sql (prop "password" req)) (u_password u) = false) ->
  db_ok 1 w = true ->
  exists w' : World,
    login now rnd req w =
      (Return (json 400 [("message", V (JStr "Invalid email or password"))]), w')
    /\ db w' = db w /\ outbox w' = outbox w.
Proof.
  intros Hnone Hdb. unfold login. eexists. split; [|split].
  - apply try_catch_return.
    eapply bind_return; [apply (db_query_ok _ 0 w Hdb)|].
    unfold select_users_by_credentials. cbn [fst snd].
    rewrite (filter_empty _ _ Hnone). reflexivity.
  - reflexivity.
  - cbn [outbox set_db]. unfold tick_db. destruct (db_faults w); reflexivity.
Qed.

Lemma login_wrong_credentials_witness :
  exists w' : World,
    login 0 half_draw [("email", JStr "ann@example.org"); ("password", JStr "guess")]
          (world0 store_with_ann) =
      (Return (json 400 [("message", V (JStr "Invalid email or password"))]), w')
    /\ db w' = db (world0 store_with_ann)
    /\ outbox w' = outbox (world0 store_with_ann).
Proof.
  apply (login_wrong_credentials (world0 store_with_ann)).
  - simpl. intros u [<-|[]]. reflexivity.
  - reflexivity.
Defined.

(** ** Login, then verification *)

Lemma login_stores {cmp : SqlCompare} (n : nat) (w : World) (req : body)
  (now rnd : Z) (u : User) :
  In u (users (db w)) ->
  sql_eq (to_sql (prop "email" req)) (u_email u) = true ->
  sql_eq (to_sql (prop "password" req)) (u_password u) = true ->
  db_ok (2 + n) w = true ->
  db (snd (login now rnd req w)) =
    snd (insert_otp (prop "email" req) (generate_otp rnd) (now + 10 * 60 * 1000) (db w))
  /\ db_ok n (snd (login now rnd req w)) = true.
Proof.
  intros Hin He Hp Hdb.
  assert (Hne : filter (fun u => sql_eq (to_sql (prop "email" req)) (u_email u)
                        && sql_eq (to_sql (prop "password" req)) (u_password u))
                       (users (db w)) <> []).
  { apply (filter_nonempty _ _ u Hin). rewrite He, Hp. reflexivity. }
  assert (E : exists w',
             login now rnd req w =
               (Return (json 500 [("message", V (JStr "Server error"))]), w')
             /\ db w' = snd (insert_otp (prop "email" req) (generate_otp rnd)
                               (now + 10 * 60 * 1000) (db w))
             /\ db_ok n w' = true).
  { unfold login. eexists. split; [|split].
    - eapply try_catch_throw.
      + eapply bind_return; [apply (db_query_ok _ (1 + n) w Hdb)|].
        unfold select_users_by_credentials. cbn [fst snd].
        destruct (filter _ (users (db w))) as [|user rest]; [contradiction|].
        eapply bind_return.
        { apply (db_query_ok _ n). apply db_ok_tick. exact Hdb. }
        eapply bind_throw. apply call_sendMail.
      + reflexivity.
    - reflexivity.
    - change (db_ok n (set_console ("error" :: console w)
                (set_db (snd (insert_otp (prop "email" req) (generate_otp rnd)
                                (now + 10 * 60 * 1000) (db w)))
                   (tick_db (set_db (db w) (tick_db w))))) = true).
      unfold db_ok. cbn [db_faults set_console].
      apply (db_ok_tick n (set_db (db w) (tick_db w))).
      apply db_ok_tick. exact Hdb. }
  destruct E as (w' & E & D & Hok). rewrite E. split; assumption.
Qed.

(** Lines 197-201 and 217-234 together: the code that a login stored is
    accepted, with the request's email, at every store time before the
    login's [Date.now()] plus ten minutes, and the answer carries a stored
    user of that email.  The email and the code have to be values the store
    finds equal to themselves. *)
Theorem login_then_verify {cmp : SqlCompare} (w : World) (req : body)
  (now rnd later : Z) (u : User) :
  In u (users (db w)) ->
  sql_eq (to_sql (prop "email" req)) (u_email u) = true ->
  sql_eq (to_sql (prop "password" req)) (u_password u) = true ->
  sql_eq (to_sql (prop "email" req)) (to_sql (prop "email" req)) = true ->
  sql_eq (JStr (generate_otp rnd)) (JStr (generate_otp rnd)) = true ->
  db_ok 5 w = true ->
  later < now + 10 * 60 * 1000 ->
  exists (w2 : World) (found : User),
    verify_otp later [("email", prop "email" req); ("otp", JStr (generate_otp rnd))]
               (snd (login now rnd req w)) =
      (Return (json 200 [("message", V (JStr "Login successful"));
                         ("token", V (JStr "FAKE-JWT-TOKEN"));
                         ("user", user_object found)]), w2)
    /\ In found (users (db w))
    /\ sql_eq (to_sql (prop "email" req)) (u_email found) = true.
Proof.
  intros Hin He Hp Hre Hro Hdb Hlater.
  destruct (login_stores 3 w req now rnd u Hin He Hp Hdb) as [D Hok].
  set (w1 := snd (login now rnd req w)) in *.
  set (vreq := [("email", prop "email" req); ("otp", JStr (generate_otp rnd))]).
  assert (Pe : prop "email" vreq = prop "email" req) by reflexivity.
  assert (Po : prop "otp" vreq = JStr (generate_otp rnd)) by reflexivity.
  assert (Hne : filter (otp_live later (prop "email" vreq) (prop "otp" vreq))
                       (user_otps (db w1)) <> []).
  { apply (filter_nonempty _ _
             (mkOtp (to_sql (prop "email" req)) (JStr (generate_otp rnd))
                    (now + 10 * 60 * 1000))).
    - rewrite D. cbn [insert_otp snd user_otps]. apply in_or_app. right. left.
      reflexivity.
    - unfold otp_live. rewrite Pe, Po. cbn [o_email o_otp o_expires_at to_sql].
      rewrite Hre, Hro. cbn [andb]. apply Z.ltb_lt. exact Hlater. }
  destruct (verify_otp_accepts 0 w1 vreq later Hne Hok) as (w2 & E & _ & _).
  rewrite Pe in E. unfold select_users_by_email in E. cbn [fst] in E.
  rewrite D in E. cbn [insert_otp snd users] in E.
  pose proof (filter_nonempty (fun u => sql_eq (to_sql (prop "email" req)) (u_email u))
                _ u Hin He) as Hu.
  destruct (filter (fun u => sql_eq (to_sql (prop "email" req)) (u_email u))
                   (users (db w))) as [|found others] eqn:F; [contradiction|].
  assert (Hf : In found (filter (fun u => sql_eq (to_sql (prop "email" req)) (u_email u))
                                (users (db w)))) by (rewrite F; left; reflexivity).
  apply filter_In in Hf as [Hf1 Hf2].
  exists w2, found. split; [exact E|]. split; assumption.
Qed.

Lemma login_then_verify_witness :
  exists (w2 : World) (found : User),
    verify_otp 599999
               [("email", prop "email" ann_login); ("otp", JStr (generate_otp half_draw))]
               (snd (login 0 half_draw ann_login (world0 store_with_ann))) =
      (Return (json 200 [("message", V (JStr "Login successful"));
                         ("token", V (JStr "FAKE-JWT-TOKEN"));
                         ("user", user_object found)]), w2)
    /\ In found (users (db (world0 store_with_ann)))
    /\ sql_eq (to_sql (prop "email" ann_login)) (u_email found) = true.
Proof.
  apply (login_then_verify (world0 store_with_ann) ann_login 0 half_draw 599999 ann).
  - simpl. left. reflexivity.
  - reflexivity.
  - reflexivity.
  - reflexivity.
  - vm_compute. reflexivity.
  - reflexivity.
  - vm_compute. reflexivity.
Defined.

(** The other side of the window: from ten minutes after the login's
    [Date.now()] on, the code is refused (no older row of that email and code
    being live), and its row stays in the table. *)
Theorem login_then_verify_late {cmp : SqlCompare} (w : World) (req : body)
  (now rnd later : Z) (u : User) :
  In u (users (db w)) ->
  sql_eq (to_sql (prop "email" req)) (u_email u) = true ->
  sql_eq (to_sql (prop "password" req)) (u_password u) = true ->
  (forall o, In o (user_otps (db w)) ->
             otp_live later (prop "email" req) (JStr (generate_otp rnd)) o = false) ->
  db_ok 3 w = true ->
  now + 10 * 60 * 1000 <= later ->
  exists w2 : World,
    verify_otp later [("email", prop "email" req); ("otp", JStr (generate_otp rnd))]
               (snd (login now rnd req w)) =
      (Return (json 400 [("message", V (JStr "Invalid or expired OTP"))]), w2)
    /\ user_otps (db w2) =
         (user_otps (db w) ++
            [mkOtp (to_sql (prop "email" req)) (JStr (generate_otp rnd))
                   (now + 10 * 60 * 1000)])%list.
Proof.
  intros Hin He Hp Hold Hdb Hlate.
  destruct (login_stores 1 w req now rnd u Hin He Hp Hdb) as [D Hok].
  set (w1 := snd (login now rnd req w)) in *.
  set (vreq := [("email", prop "email" req); ("otp", JStr (generate_otp rnd))]).
  assert (Pe : prop "email" vreq = prop "email" req) by reflexivity.
  assert (Po : prop "otp" vreq = JStr (generate_otp rnd)) by reflexivity.
  destruct (verify_otp_rejects w1 vreq later) as (w2 & E & D2).
  - rewrite Pe, Po, D. cbn [insert_otp snd user_otps].
    apply filter_empty. intros o Ho. apply in_app_or in Ho as [Ho|[<-|[]]].
    + apply Hold. exact Ho.
    + unfold otp_live. cbn [o_expires_at].
      replace (later <? now + 10 * 60 * 1000) with false
        by (symmetry; apply Z.ltb_ge; exact Hlate).
      apply andb_false_r.
  - exact Hok.
  - exists w2. split; [exact E|]. rewrite D2, D. reflexivity.
Qed.

Lemma login_then_verify_late_witness :
  exists w2 : World,
    verify_otp 600000
               [("email", prop "email" ann_login); ("otp", JStr (generate_otp half_draw))]
               (snd (login 0 half_draw ann_login (world0 store_with_ann))) =
      (Return (json 400 [("message", V (JStr "Invalid or expired OTP"))]), w2)
    /\ user_otps (db w2) =
         (user_otps (db (world0 store_with_ann)) ++
            [mkOtp (to_sql (prop "email" ann_login)) (JStr (generate_otp half_draw))
                   (0 + 10 * 60 * 1000)])%list.
Proof.
  apply (login_then_verify_late (world0 store_with_ann) ann_login 0 half_draw 600000 ann).
  - simpl. left. reflexivity.
  - reflexivity.
  - reflexivity.
  - simpl. intros o [].
  - reflexivity.
  - vm_compute. discriminate.
Defined.

(** ** Failures of the store *)

(** The catch blocks of the POST handlers: when the first statement of a
    handler fails, the answer is 500 with the handler's own body, the store
    is as it was and no mail has been handed over.  Testimonials put the raw
    error into the body. *)
Theorem store_failure_answers_500 {cmp : SqlCompare} (w : World) (rest : list bool)
  (req : body) (now rnd : Z) :
  db_faults w = true :: rest ->
  let unchanged (r : outcome response * World) (answer : response) :=
    fst r = Return answer /\ db (snd r) = db w /\ outbox (snd r) = outbox w in
  (enroll_checked req = true ->
   unchanged (enroll req w)
     (json 500 [("success", V (JBool false));
                ("message", V (JStr "Server error, please try again later"))]))
  /\ unchanged (signup req w) (json 500 [("message", V (JStr "Server error"))])
  /\ unchanged (login now rnd req w) (json 500 [("message", V (JStr "Server error"))])
  /\ unchanged (verify_otp now req w) (json 500 [("message", V (JStr "Server error"))])
  /\ (register_checked req = true ->
      unchanged (register req w)
        (json 500 [("success", V (JBool false)); ("message", V (JStr "DB error"))]))
  /\ unchanged (post_testimonial req w) (json 500 [("error", Err DbError)])
  /\ unchanged (demo_request req w)
       (json 500 [("error", V (JStr "Database insert failed"))])
  /\ (forall file : string,
      unchanged (mentor_apply req (Some file) w)
        (json 500 [("success", V (JBool false));
                   ("message", V (JStr "DB insert failed"))])).
Proof.
  intros Hf unchanged. unfold unchanged.
  assert (Hq : forall A (op : Store -> A * Store),
             db_query op w = (Throw DbError, set_db_faults rest w))
    by (intros; apply db_query_fault; exact Hf).
  assert (Hchk : forall a b c d : bool,
             a && b && c && d = true -> negb a || negb b || negb c || negb d = false)
    by (intros [] [] [] []; simpl; congruence).
  split; [|split; [|split; [|split; [|split; [|split; [|split]]]]]].
  all: try intros Hc.
  all: unfold enroll, signup, login, verify_otp, register, post_testimonial,
         demo_request, mentor_apply, try_catch, bind.
  all: try (rewrite (Hchk _ _ _ _ Hc)).
  all: rewrite Hq; repeat split.
Qed.

Lemma store_failure_answers_500_witness :
  fst (enroll ann_enroll (db_down empty_store)) =
    Return (json 500 [("success", V (JBool false));
                      ("message", V (JStr "Server error, please try again later"))])
  /\ db (snd (enroll ann_enroll (db_down empty_store))) = empty_store
  /\ outbox (snd (enroll ann_enroll (db_down empty_store))) = [].
Proof.
  pose proof (store_failure_answers_500 (db_down empty_store) [] ann_enroll 0 0 eq_refl)
    as (He & _).
  apply He. reflexivity.
Defined.

(** ** Mail *)

(** Lines 71-86, case by case: [sendMailSafe] always returns; without a
    transport it does not consult it; a send that fails leaves the outbox as
    it was; a send that succeeds hands over exactly the mail asked for.  In
    no case does it touch the store. *)
Theorem sendMailSafe_cases (to : scalar) (subject html : string) (w : World) :
  let w' := snd (sendMailSafe to subject html w) in
  fst (sendMailSafe to subject html w) = Return tt
  /\ db w' = db w
  /\ (transporter w = false -> outbox w' = outbox w /\ mail_faults w' = mail_faults w)
  /\ (transporter w = true -> hd false (mail_faults w) = true ->
      outbox w' = outbox w /\ mail_faults w' = tl (mail_faults w))
  /\ (transporter w = true -> hd false (mail_faults w) = false ->
      outbox w' = mkMail to subject html :: outbox w
      /\ mail_faults w' = tl (mail_faults w)).
Proof.
  unfold sendMailSafe, try_catch, transport_send, console_log.
  destruct w as [s u o c t f m]. cbn [transporter mail_faults outbox db].
  destruct t; cbn [negb]; destruct m as [|[|] m]; cbn;
    repeat split; intros; try discriminate; reflexivity.
Qed.

Lemma sendMailSafe_cases_witness :
  outbox (snd (sendMailSafe academy "subject" "<p>text</p>" (failing_mail empty_store))) = []
  /\ mail_faults (snd (sendMailSafe academy "subject" "<p>text</p>"
                         (failing_mail empty_store))) = [true].
Proof.
  pose proof (sendMailSafe_cases academy "subject" "<p>text</p>"
                (failing_mail empty_store)) as (_ & _ & _ & H & _).
  apply H; reflexivity.
Defined.

(** Lines 128-144: the two mails of an enrollment are attempted one after
    the other, each on its own: the mail to the academy first, then the mail
    to the address of the request, and the failure of the first does not stop
    the second. *)
Theorem enroll_sends_each_mail {cmp : SqlCompare} (w : World) (req : body)
  (fail1 fail2 : bool) (rest : list bool) :
  enroll_checked req = true ->
  db_ok 1 w = true ->
  transporter w = true ->
  mail_faults w = fail1 :: fail2 :: rest ->
  map (fun m => (mail_to m, mail_subject m)) (outbox (snd (enroll req w))) =
    ((if fail2 then [] else [(prop "email" req, "✅ Enrollment Successful")])
     ++ (if fail1 then [] else [(academy, "📩 New Enrollment")])
     ++ map (fun m => (mail_to m, mail_subject m)) (outbox w))%list.
Proof.
  intros Hc Hdb Ht Hm. unfold enroll_checked in Hc.
  repeat (apply andb_true_iff in Hc; destruct Hc as [Hc ?]).
  unfold enroll. rewrite Hc, H, H0, H1. cbn [negb orb].
  unfold try_catch, bind. rewrite (db_query_ok _ 0 w Hdb).
  rewrite !call_sendMailSafe.
  unfold sendMailSafe, try_catch, transport_send, console_log, tick_db.
  destruct w as [s u o c t f m]. cbn [transporter mail_faults db_faults] in *.
  subst t m.
  destruct f as [|b f]; destruct fail1, fail2; reflexivity.
Qed.

Lemma enroll_sends_each_mail_witness :
  map (fun m => (mail_to m, mail_subject m))
      (outbox (snd (enroll ann_enroll
                      (mkWorld empty_store [] [] [] true [] [true; false])))) =
    [(JStr "ann@example.org", "✅ Enrollment Successful")].
Proof.
  apply (enroll_sends_each_mail (mkWorld empty_store [] [] [] true [] [true; false])
           ann_enroll true false []); reflexivity.
Defined.

(** Without a transport an enrollment sends nothing and warns twice. *)
Theorem enroll_without_transport {cmp : SqlCompare} (w : World) (req : body) :
  enroll_checked req = true ->
  db_ok 1 w = true ->
  transporter w = false ->
  outbox (snd (enroll req w)) = outbox w
  /\ console (snd (enroll req w)) =
       "Skipping email - transporter not configured"
       :: "Skipping email - transporter not configured" :: console w.
Proof.
  intros Hc Hdb Ht. unfold enroll_checked in Hc.
  repeat (apply andb_true_iff in Hc; destruct Hc as [Hc ?]).
  unfold enroll. rewrite Hc, H, H0, H1. cbn [negb orb].
  unfold try_catch, bind. rewrite (db_query_ok _ 0 w Hdb).
  rewrite !call_sendMailSafe.
  unfold sendMailSafe, try_catch, transport_send, console_log, tick_db.
  destruct w as [s u o c t f m]. cbn [transporter db_faults] in *. subst t.
  destruct f as [|b f]; split; reflexivity.
Qed.

Lemma enroll_without_transport_witness :
  outbox (snd (enroll ann_enroll (with_mail false [] (world0 empty_store)))) = []
  /\ console (snd (enroll ann_enroll (with_mail false [] (world0 empty_store)))) =
       ["Skipping email - transporter not configured";
        "Skipping email - transporter not configured"].
Proof.
  apply (enroll_without_transport (with_mail false [] (world0 empty_store)) ann_enroll);
    reflexivity.
Defined.

(** ** The size limit *)

(** Line 38: a file of an allowed type above the limit is stopped by the
    middleware: the answer is 500 from the default error handler, the file is
    not kept and no row is inserted. *)
Theorem oversized_upload_refused (at_limit : bool) (now : Z) (req : multipart)
  (f : upfile) (w : World) :
  resume req = Some f ->
  fileFilter f = true ->
  10 * 1024 * 1024 < Z.of_nat (String.length (content f)) ->
  mentor_apply_route at_limit now req w =
    (Return (mkResponse 500 (Html "Internal Server Error")), w).
Proof.
  intros Hf Hok Hsize.
  assert (Hbig : too_large at_limit f = true).
  { unfold too_large, fileSize. destruct at_limit.
    - apply Z.leb_le. lia.
    - apply Z.ltb_lt. exact Hsize. }
  unfold mentor_apply_route, upload_single. rewrite Hf, Hok, Hbig. reflexivity.
Qed.

(** ** Extensions of file names *)

Lemma list_ascii_app (a b : string) :
  list_ascii_of_string (a ++ b) = (list_ascii_of_string a ++ list_ascii_of_string b)%list.
Proof. induction a as [|c a IH]; [reflexivity|]. cbn. rewrite IH. reflexivity. Qed.

Lemma list_ascii_length (s : string) :
  List.length (list_ascii_of_string s) = String.length s.
Proof. induction s as [|c s IH]; [reflexivity|]. cbn. rewrite IH. reflexivity. Qed.

Lemma string_length_app (a b : string) :
  String.length (a ++ b) = (String.length a + String.length b)%nat.
Proof. induction a as [|c a IH]; [reflexivity|]. cbn. rewrite IH. reflexivity. Qed.

Lemma substring_whole (s : string) : substring 0 (String.length s) s = s.
Proof. induction s as [|c s IH]; [reflexivity|]. cbn. rewrite IH. reflexivity. Qed.

Lemma substring_skip (p q : string) :
  substring (String.length p) (String.length q) (p ++ q) = q.
Proof. induction p as [|c p IH]; [apply substring_whole|]. cbn. exact IH. Qed.

Lemma plain_list (s : string) :
  plain s = true -> Forall (fun c => plain_char c = true) (list_ascii_of_string s).
Proof.
  induction s as [|c s IH]; intros H; [constructor|].
  cbn in H. apply andb_true_iff in H as [Hc Hs].
  constructor; [exact Hc|apply IH; exact Hs].
Qed.

(** Once the end of the extension is marked and no dot has been seen, the
    loop passes over plain characters without a change of state. *)
Lemma extname_scan_plain (l rest : list ascii) :
  Forall (fun c => plain_char c = true) l ->
  forall (i : Z) (st : ext_scan),
    startDot st = -1 -> end_ st <> -1 ->
    extname_scan (l ++ rest) i st = extname_scan rest (i - Z.of_nat (List.length l)) st.
Proof.
  induction 1 as [|c l Hc _ IH]; intros i st Hd He.
  - cbn. f_equal. lia.
  - cbn [app extname_scan List.length].
    unfold plain_char in Hc. apply andb_true_iff in Hc as [Hs Hdot].
    apply negb_true_iff in Hs. apply negb_true_iff in Hdot.
    rewrite Hs, Hdot.
    destruct (Z.eqb_spec (end_ st) (-1)) as [E|_]; [contradiction|].
    rewrite Hd, Z.eqb_refl. cbn [negb].
    rewrite (IH (i - 1) st Hd He). f_equal. lia.
Qed.

(** Once a dot is marked and a character in front of it has been seen,
    the rest of the loop keeps the dot, the end, and a non-zero state. *)
Lemma extname_scan_settled (l : list ascii) :
  forall (i : Z) (st : ext_scan),
    startDot st <> -1 -> end_ st <> -1 -> preDotState st <> 0 ->
    let st' := extname_scan l i st in
    startDot st' = startDot st /\ end_ st' = end_ st /\ preDotState st' <> 0.
Proof.
  induction l as [|c l IH]; intros i st Hd He Hp; [cbn; auto|].
  cbn [extname_scan].
  destruct (Ascii.eqb c slash).
  - destruct (matchedSlash st); cbn [negb].
    + apply IH; assumption.
    + cbn. auto.
  - destruct (Z.eqb_spec (end_ st) (-1)) as [E|_]; [contradiction|].
    destruct (Z.eqb_spec (startDot st) (-1)) as [E|_]; [contradiction|].
    cbn [negb].
    destruct (Ascii.eqb c dot).
    + destruct (Z.eqb_spec (preDotState st) 1) as [E1|N1]; cbn [negb].
      * apply IH; assumption.
      * destruct (IH (i - 1)
                    (mkExtScan (startDot st) (startPart st) (end_ st)
                               (matchedSlash st) 1)) as (A & B & C);
          cbn; try assumption; try discriminate. auto.
    + destruct (IH (i - 1)
                  (mkExtScan (startDot st) (startPart st) (end_ st)
                             (matchedSlash st) (-1))) as (A & B & C);
        cbn; try assumption; try discriminate. auto.
Qed.

Lemma extname_scan_first (c : ascii) (rest : list ascii) (i : Z) :
  plain_char c = true ->
  extname_scan (c :: rest) i (mkExtScan (-1) 0 (-1) true 0) =
    extname_scan rest (i - 1) (mkExtScan (-1) 0 (i + 1) false 0).
Proof.
  intros Hc. unfold plain_char in Hc. apply andb_true_iff in Hc as [Hs Hd].
  apply negb_true_iff in Hs. apply negb_true_iff in Hd.
  cbn [extname_scan]. rewrite Hs, Hd. reflexivity.
Qed.

Lemma extname_scan_dot (rest : list ascii) (i e : Z) :
  e <> -1 ->
  extname_scan (dot :: rest) i (mkExtScan (-1) 0 e false 0) =
    extname_scan rest (i - 1) (mkExtScan i 0 e false 0).
Proof.
  intros He. cbn [extname_scan].
  change (Ascii.eqb dot slash) with false. rewrite Ascii.eqb_refl.
  cbn [end_ startDot]. destruct (Z.eqb_spec e (-1)) as [E|_]; [contradiction|].
  reflexivity.
Qed.

Lemma extname_scan_before_dot (c : ascii) (rest : list ascii) (i d e : Z) :
  Ascii.eqb c slash = false -> d <> -1 -> e <> -1 ->
  extname_scan (c :: rest) i (mkExtScan d 0 e false 0) =
    extname_scan rest (i - 1)
      (mkExtScan d 0 e false (if Ascii.eqb c dot then 1 else -1)).
Proof.
  intros Hc Hd He. cbn [extname_scan]. rewrite Hc.
  cbn [end_ startDot preDotState].
  destruct (Z.eqb_spec e (-1)) as [E|_]; [contradiction|].
  cbn [end_ startDot preDotState].
  destruct (Z.eqb_spec d (-1)) as [E|_]; [contradiction|].
  destruct (Ascii.eqb c dot); reflexivity.
Qed.

(** Line 30 and line 35 read the extension with [path.extname].  For a
    name that ends in a dot and a non-empty run of plain characters, with a
    character other than the separator in front of the dot, the extension is
    that dot and run, whatever comes before. *)
Theorem extname_last_dot (front ext : string) (c : ascii) :
  Ascii.eqb c slash = false ->
  plain ext = true ->
  ext <> "" ->
  extname (front ++ String c (String dot ext)) = String dot ext.
Proof.
  intros Hc Hplain Hne.
  set (name := front ++ String c (String dot ext)).
  set (len := Z.of_nat (String.length name)).
  set (d := Z.of_nat (String.length front) + 1).
  assert (Hext : (0 < String.length ext)%nat)
    by (destruct ext; [contradiction|cbn; lia]).
  assert (Hlen : len = d + 1 + Z.of_nat (String.length ext)).
  { unfold len, name, d. rewrite string_length_app. cbn [String.length]. lia. }
  assert (Hfin : exists fin,
             extname_scan (rev (list_ascii_of_string name)) (len - 1)
                          (mkExtScan (-1) 0 (-1) true 0) = fin
             /\ startDot fin = d /\ end_ fin = len /\ preDotState fin <> 0).
  { assert (Hrev : rev (list_ascii_of_string name) =
                   (rev (list_ascii_of_string ext) ++
                    dot :: c :: rev (list_ascii_of_string front))%list).
    { unfold name. rewrite list_ascii_app.
      change (list_ascii_of_string (String c (String dot ext)))
        with ([c; dot] ++ list_ascii_of_string ext)%list.
      rewrite !rev_app_distr. cbn [rev app]. rewrite <- app_assoc. reflexivity. }
    assert (F : Forall (fun c => plain_char c = true) (rev (list_ascii_of_string ext)))
      by (apply Forall_rev, plain_list, Hplain).
    assert (L : List.length (rev (list_ascii_of_string ext)) = String.length ext)
      by (rewrite length_rev; apply list_ascii_length).
    rewrite Hrev.
    destruct (rev (list_ascii_of_string ext)) as [|last l]; [cbn in L; lia|].
    inversion F as [|? ? Hlast Fl]; subst. cbn [List.length] in L.
    cbn [app]. rewrite (extname_scan_first last _ _ Hlast).
    rewrite (extname_scan_plain l _ Fl) by (cbn; lia).
    rewrite extname_scan_dot by lia.
    rewrite (extname_scan_before_dot c _ _ _ _ Hc) by lia.
    eexists. split; [reflexivity|].
    match goal with
    | |- context [extname_scan ?r ?i ?st] =>
        destruct (extname_scan_settled r i st) as (A & B & C)
    end.
    - cbn. lia.
    - cbn. lia.
    - cbn. destruct (Ascii.eqb c dot); discriminate.
    - cbv zeta in A, B, C. rewrite A, B. cbn [startDot end_].
      split; [lia|]. split; [lia|]. exact C. }
  destruct Hfin as (fin & Efin & A & B & C).
  unfold extname. fold name. fold len. rewrite Efin, A, B.
  destruct (Z.eqb_spec d (-1)) as [E|_]; [lia|].
  destruct (Z.eqb_spec len (-1)) as [E|_]; [lia|].
  destruct (Z.eqb_spec (preDotState fin) 0) as [E|_]; [contradiction|].
  destruct (Z.eqb_spec d (len - 1)) as [E|_]; [lia|].
  rewrite andb_false_r. cbn [orb andb].
  replace (Z.to_nat d) with (String.length (front ++ String c "")).
  2:{ rewrite string_length_app. cbn [String.length]. lia. }
  replace (Z.to_nat (len - d)) with (String.length (String dot ext)).
  2:{ cbn [String.length]. lia. }
  replace name with ((front ++ String c "") ++ String dot ext).
  2:{ unfold name. clear. induction front as [|a front IH]; [reflexivity|].
      cbn. rewrite IH. reflexivity. }
  apply substring_skip.
Qed.

Lemma extname_last_dot_witness :
  extname ("a.b/resume.fina" ++ String "l" (String dot "PDF")) = String dot "PDF".
Proof.
  apply (extname_last_dot "a.b/resume.fina" "PDF" "l"%char).
  - reflexivity.
  - reflexivity.
  - discriminate.
Defined.

(** A name without a dot and without a separator has no extension. *)
Lemma extname_plain (name : string) : plain name = true -> extname name = "".
Proof.
  intros Hp. unfold extname.
  assert (F : Forall (fun c => plain_char c = true) (rev (list_ascii_of_string name)))
    by (apply Forall_rev, plain_list, Hp).
  destruct (rev (list_ascii_of_string name)) as [|last l]; [reflexivity|].
  inversion F as [|? ? Hlast Fl]; subst.
  rewrite (extname_scan_first last _ _ Hlast).
  rewrite <- (app_nil_r l).
  rewrite (extname_scan_plain l [] Fl) by (cbn; lia).
  reflexivity.
Qed.

Lemma toLowerCase_dot (ext : string) :
  toLowerCase (String dot ext) = String dot (toLowerCase ext).
Proof. reflexivity. Qed.

(** Lines 34-36: the filter decides on the last extension alone, whatever
    its case and whatever earlier dots the name has. *)
Theorem fileFilter_last_extension (front ext data : string) (c : ascii) :
  Ascii.eqb c slash = false ->
  plain ext = true ->
  ext <> "" ->
  fileFilter (mkUpfile (front ++ String c (String dot ext)) data) =
    includes ["pdf"; "doc"; "docx"] (toLowerCase ext).
Proof.
  intros Hc Hp Hne. unfold fileFilter. cbn [originalname].
  rewrite (extname_last_dot front ext c Hc Hp Hne), toLowerCase_dot.
  unfold includes. cbn [existsb String.eqb]. rewrite !Ascii.eqb_refl. reflexivity.
Qed.

Lemma fileFilter_last_extension_witness :
  fileFilter (mkUpfile ("cv.pd" ++ String "f" (String dot "exe")) "MZ") = false
  /\ fileFilter (mkUpfile ("cv.ex" ++ String "e" (String dot "Pdf")) "%PDF") = true.
Proof.
  split.
  - rewrite (fileFilter_last_extension "cv.pd" "exe" "MZ" "f"%char);
      [reflexivity|reflexivity|reflexivity|discriminate].
  - rewrite (fileFilter_last_extension "cv.ex" "Pdf" "%PDF" "e"%char);
      [reflexivity|reflexivity|reflexivity|discriminate].
Defined.

(** A file whose name has no dot is refused like a file of a wrong type:
    500, nothing stored. *)
Theorem upload_without_extension_refused (at_limit : bool) (now : Z)
  (req : multipart) (f : upfile) (w : World) :
  resume req = Some f ->
  plain (originalname f) = true ->
  mentor_apply_route at_limit now req w =
    (Return (mkResponse 500 (Html "Internal Server Error")), w).
Proof.
  intros Hf Hp. unfold mentor_apply_route, upload_single, fileFilter.
  rewrite Hf, (extname_plain _ Hp). reflexivity.
Qed.

Lemma upload_without_extension_refused_witness :
  mentor_apply_route true 5 (mkMultipart [] (Some (mkUpfile "resume" "text")))
                     (world0 empty_store) =
    (Return (mkResponse 500 (Html "Internal Server Error")), world0 empty_store).
Proof.
  apply (upload_without_extension_refused true 5 _ (mkUpfile "resume" "text"));
    reflexivity.
Defined.

Lemma doubled_length (n : nat) :
  forall s : string,
    Z.of_nat (String.length (doubled n s)) = 2 ^ Z.of_nat n * Z.of_nat (String.length s).
Proof.
  induction n as [|n IH]; intros s.
  - cbn [doubled]. change (2 ^ Z.of_nat 0) with 1. lia.
  - cbn [doubled]. rewrite IH, string_length_app, Nat2Z.inj_succ, Z.pow_succ_r by lia.
    lia.
Qed.

Lemma oversized_upload_refused_witness :
  mentor_apply_route true 5 (mkMultipart [] (Some (mkUpfile "a.pdf" (doubled 24 "%"))))
                     (world0 empty_store) =
    (Return (mkResponse 500 (Html "Internal Server Error")), world0 empty_store).
Proof.
  apply (oversized_upload_refused true 5 _ (mkUpfile "a.pdf" (doubled 24 "%"))).
  - reflexivity.
  - reflexivity.
  - cbn [content]. rewrite doubled_length. reflexivity.
Defined.

(** ** Stored file names *)

Lemma append_cons (s t : string) (c : ascii) :
  (s ++ String c "") ++ t = s ++ String c t.
Proof. induction s as [|a s IH]; [reflexivity|]. cbn. rewrite IH. reflexivity. Qed.

Lemma dec_digits_acc (fuel : nat) :
  forall (n : Z) (acc : string), dec_digits fuel n acc = dec_digits fuel n "" ++ acc.
Proof.
  induction fuel as [|f IH]; intros n acc; [reflexivity|].
  cbn [dec_digits]. destruct (n / 10 =? 0); [reflexivity|].
  rewrite (IH (n / 10) (String (digit_char (n mod 10)) acc)).
  rewrite (IH (n / 10) (String (digit_char (n mod 10)) "")).
  symmetry. apply append_cons.
Qed.

Lemma decimal_value_app (s t : string) :
  forall a : Z, decimal_value (s ++ t) a = decimal_value t (decimal_value s a).
Proof. induction s as [|c s IH]; intros a; [reflexivity|]. cbn. apply IH. Qed.

Lemma digit_value_char (d : Z) : 0 <= d < 10 -> digit_value (digit_char d) = d.
Proof.
  intros H.
  assert (E : d = 0 \/ d = 1 \/ d = 2 \/ d = 3 \/ d = 4 \/ d = 5 \/ d = 6
              \/ d = 7 \/ d = 8 \/ d = 9) by lia.
  repeat (destruct E as [->|E]; [reflexivity|]). subst d. reflexivity.
Qed.

Lemma dec_digits_value (fuel : nat) :
  forall n : Z, 0 <= n < 10 ^ Z.of_nat fuel ->
                decimal_value (dec_digits fuel n "") 0 = n.
Proof.
  induction fuel as [|f IH]; intros n Hn.
  - cbn in Hn. cbn. lia.
  - cbn [dec_digits].
    assert (Hm : 0 <= n mod 10 < 10) by (apply Z.mod_pos_bound; lia).
    pose proof (Z.div_mod n 10 ltac:(lia)) as Hdm.
    destruct (Z.eqb_spec (n / 10) 0) as [E|N].
    + cbn [decimal_value]. rewrite digit_value_char by exact Hm. lia.
    + rewrite dec_digits_acc, decimal_value_app. cbn [decimal_value].
      rewrite digit_value_char by exact Hm.
      rewrite IH; [lia|].
      rewrite Nat2Z.inj_succ, Z.pow_succ_r in Hn by lia.
      split; [apply Z.div_pos; lia|apply Z.div_lt_upper_bound; lia].
Qed.

(** The decimal string of a number reads back as the number. *)
Lemma Z_to_string_value (n : Z) : 0 <= n -> decimal_value (Z_to_string n) 0 = n.
Proof.
  intros Hn. unfold Z_to_string.
  destruct (Z.ltb_spec n 0) as [H|_]; [lia|].
  apply dec_digits_value. split; [exact Hn|].
  destruct (Z.eq_dec n 0) as [->|N]; [reflexivity|].
  rewrite Nat2Z.inj_succ, Z2Nat.id by apply Z.log2_nonneg.
  pose proof (Z.log2_spec n ltac:(lia)) as [_ Hhi].
  assert (2 ^ Z.succ (Z.log2 n) <= 10 ^ Z.succ (Z.log2 n)).
  { apply Z.pow_le_mono_l. lia. }
  lia.
Qed.

Lemma dec_digits_all_digits (fuel : nat) :
  forall (n : Z) (acc : string),
    all_digits acc = true -> all_digits (dec_digits fuel n acc) = true.
Proof.
  induction fuel as [|f IH]; intros n acc Ha; [exact Ha|].
  cbn [dec_digits].
  assert (Hd : all_digits (String (digit_char (n mod 10)) acc) = true).
  { cbn [all_digits]. rewrite Ha, digit_char_is_digit; [reflexivity|].
    apply Z.mod_pos_bound. lia. }
  destruct (n / 10 =? 0); [exact Hd|]. apply IH. exact Hd.
Qed.

Lemma Z_to_string_digits (n : Z) : 0 <= n -> all_digits (Z_to_string n) = true.
Proof.
  intros Hn. unfold Z_to_string.
  destruct (Z.ltb_spec n 0) as [H|_]; [lia|].
  apply dec_digits_all_digits. reflexivity.
Qed.

(** Two runs of digits, each followed by a dot, that give the same string
    are the same run. *)
Lemma digits_before_dot (s1 : string) :
  forall (s2 r1 r2 : string),
    all_digits s1 = true -> all_digits s2 = true ->
    s1 ++ String dot r1 = s2 ++ String dot r2 -> s1 = s2.
Proof.
  induction s1 as [|a s1 IH]; intros [|b s2] r1 r2 H1 H2 E; cbn in *.
  - reflexivity.
  - injection E as Ec _. subst b. discriminate H2.
  - injection E as Ec _. subst a. discriminate H1.
  - injection E as Ec Et. subst b.
    apply andb_true_iff in H1 as [_ H1]. apply andb_true_iff in H2 as [_ H2].
    f_equal. exact (IH s2 r1 r2 H1 H2 Et).
Qed.

Lemma lower_char_dot (c : ascii) : lower_char c = dot -> c = dot.
Proof.
  destruct c as [[] [] [] [] [] [] [] []]; vm_compute; intros H;
    first [reflexivity | discriminate H].
Qed.

(** The extension of a file that passed the filter starts with a dot. *)
Lemma accepted_extension (f : upfile) :
  fileFilter f = true -> exists r, extname (originalname f) = String dot r.
Proof.
  unfold fileFilter. intros H. apply includes_In in H.
  destruct (extname (originalname f)) as [|c r].
  - cbn in H. destruct H as [H|[H|[H|[]]]]; discriminate H.
  - exists r. f_equal. apply lower_char_dot.
    cbn [toLowerCase] in H.
    destruct H as [H|[H|[H|[]]]]; injection H as H _; symmetry; exact H.
Qed.

(** Line 30: accepted files stored at different values of [Date.now()]
    get different names. *)
Lemma stored_names_differ (t1 t2 : Z) (f1 f2 : upfile) :
  fileFilter f1 = true -> fileFilter f2 = true ->
  0 <= t1 -> 0 <= t2 -> t1 <> t2 ->
  Z_to_string t1 ++ extname (originalname f1) <>
  Z_to_string t2 ++ extname (originalname f2).
Proof.
  intros H1 H2 P1 P2 Hne E.
  destruct (accepted_extension f1 H1) as [r1 E1].
  destruct (accepted_extension f2 H2) as [r2 E2].
  rewrite E1, E2 in E.
  apply digits_before_dot in E; try (apply Z_to_string_digits; assumption).
  apply Hne.
  rewrite <- (Z_to_string_value t1 P1), <- (Z_to_string_value t2 P2), E.
  reflexivity.
Qed.

Lemma assoc_other {A} (k k' : string) (v : A) (l : list (string * A)) :
  k <> k' -> assoc k ((k', v) :: l) = assoc k l.
Proof.
  intros H. cbn [assoc]. destruct (String.eqb_spec k k') as [E|_]; [contradiction|].
  reflexivity.
Qed.

(** Lines 26-31: two accepted uploads at different milliseconds are both
    kept, and each is served under its own name. *)
Theorem uploads_at_different_times_coexist (at_limit : bool) (t1 t2 : Z)
  (req1 req2 : multipart) (f1 f2 : upfile) (w : World) :
  resume req1 = Some f1 -> resume req2 = Some f2 ->
  fileFilter f1 = true -> fileFilter f2 = true ->
  too_large at_limit f1 = false -> too_large at_limit f2 = false ->
  0 <= t1 -> 0 <= t2 -> t1 <> t2 ->
  let w2 := snd (upload_single at_limit t2 req2
                   (snd (upload_single at_limit t1 req1 w))) in
  static_get ("/uploads/" ++ Z_to_string t1 ++ extname (originalname f1)) w2 =
    Some (content f1)
  /\ static_get ("/uploads/" ++ Z_to_string t2 ++ extname (originalname f2)) w2 =
       Some (content f2).
Proof.
  intros R1 R2 F1 F2 S1 S2 P1 P2 Hne w2. unfold w2.
  rewrite (upload_single_stores at_limit t1 req1 f1 w R1 F1 S1). cbn [snd].
  rewrite (upload_single_stores at_limit t2 req2 f2 _ R2 F2 S2). cbn [snd].
  unfold static_get. rewrite !strip_prefix_app. cbn [uploads set_uploads].
  split.
  - rewrite assoc_other by (apply stored_names_differ; assumption).
    apply assoc_head.
  - apply assoc_head.
Qed.

Lemma uploads_at_different_times_coexist_witness :
  let w2 := snd (upload_single true 2 pdf_upload
                   (snd (upload_single true 1
                           (mkMultipart [] (Some (mkUpfile "x.doc" "first")))
                           (world0 empty_store)))) in
  static_get ("/uploads/" ++ Z_to_string 1 ++ extname "x.doc") w2 = Some "first"
  /\ static_get ("/uploads/" ++ Z_to_string 2 ++ extname "Resume.PDF") w2 =
       Some "%PDF-1.7".
Proof.
  apply (uploads_at_different_times_coexist true 1 2
           (mkMultipart [] (Some (mkUpfile "x.doc" "first"))) pdf_upload
           (mkUpfile "x.doc" "first") (mkUpfile "Resume.PDF" "%PDF-1.7")
           (world0 empty_store));
    try reflexivity; lia.
Defined.

(** The collision that line 30 allows: two accepted uploads in the same
    millisecond with the same extension share one name, and the second
    replaces the first. *)
Theorem uploads_in_same_millisecond_collide (at_limit : bool) (t : Z)
  (req1 req2 : multipart) (f1 f2 : upfile) (w : World) :
  resume req1 = Some f1 -> resume req2 = Some f2 ->
  fileFilter f1 = true -> fileFilter f2 = true ->
  too_large at_limit f1 = false -> too_large at_limit f2 = false ->
  extname (originalname f1) = extname (originalname f2) ->
  let w1 := snd (upload_single at_limit t req1 w) in
  let w2 := snd (upload_single at_limit t req2 w1) in
  fst (upload_single at_limit t req1 w) = fst (upload_single at_limit t req2 w1)
  /\ static_get ("/uploads/" ++ Z_to_string t ++ extname (originalname f1)) w1 =
       Some (content f1)
  /\ static_get ("/uploads/" ++ Z_to_string t ++ extname (originalname f1)) w2 =
       Some (content f2).
Proof.
  intros R1 R2 F1 F2 S1 S2 Hext w1 w2. unfold w2, w1.
  rewrite (upload_single_stores at_limit t req1 f1 w R1 F1 S1). cbn [snd fst].
  rewrite (upload_single_stores at_limit t req2 f2 _ R2 F2 S2). cbn [snd fst].
  rewrite <- Hext. unfold static_get. rewrite !strip_prefix_app.
  cbn [uploads set_uploads]. rewrite !assoc_head. auto.
Qed.

Lemma uploads_in_same_millisecond_collide_witness :
  let w1 := snd (upload_single true 7
                   (mkMultipart [] (Some (mkUpfile "a.pdf" "first")))
                   (world0 empty_store)) in
  let w2 := snd (upload_single true 7
                   (mkMultipart [] (Some (mkUpfile "b.pdf" "second"))) w1) in
  fst (upload_single true 7 (mkMultipart [] (Some (mkUpfile "a.pdf" "first")))
                     (world0 empty_store)) =
  fst (upload_single true 7 (mkMultipart [] (Some (mkUpfile "b.pdf" "second"))) w1)
  /\ static_get ("/uploads/" ++ Z_to_string 7 ++ extname "a.pdf") w1 = Some "first"
  /\ static_get ("/uploads/" ++ Z_to_string 7 ++ extname "a.pdf") w2 = Some "second".
Proof.
  apply (uploads_in_same_millisecond_collide true 7
           (mkMultipart [] (Some (mkUpfile "a.pdf" "first")))
           (mkMultipart [] (Some (mkUpfile "b.pdf" "second")))
           (mkUpfile "a.pdf" "first") (mkUpfile "b.pdf" "second")
           (world0 empty_store)); reflexivity.
Defined.

(** ** GET /api/courses/:id *)

Section ReadProperties.
Context {cmp : SqlCompare}.
Variable JSON_parse : string -> option jtree.

(** Lines 101-102: an id that no course has is answered 404, and nothing
    changes. *)
Theorem get_course_unknown (cat : Catalog) (id : string) (w : World) :
  (forall c, In c (courses cat) -> sql_eq (JStr id) (c_id c) = false) ->
  db_ok 1 w = true ->
  exists w' : World,
    get_course JSON_parse cat id w =
      (Return (inr (json 404 [("error", V (JStr "Course not found"))])), w')
    /\ db w' = db w.
Proof.
  intros Hnone Hdb. unfold get_course. eexists. split.
  - apply try_catch_return.
    eapply bind_return; [apply (db_query_ok _ 0 w Hdb)|].
    cbn [fst snd]. rewrite (filter_empty _ _ Hnone). reflexivity.
  - reflexivity.
Qed.

(** Lines 104-108: the first course of that id is answered with its other
    columns as stored, and its syllabus parsed when it is a non-empty text
    that parses, replaced by the empty array when it is a non-empty text
    that does not parse, and as stored in every other case (NULL, the empty
    text, a value that is no text). *)
Theorem get_course_syllabus (cat : Catalog) (id : string) (w : World)
  (course : Course) (others : list Course) :
  filter (fun c => sql_eq (JStr id) (c_id c)) (courses cat) = course :: others ->
  db_ok 1 w = true ->
  exists (w' : World) (sent : Course),
    get_course JSON_parse cat id w = (Return (inl sent), w')
    /\ c_id sent = c_id course /\ c_columns sent = c_columns course
    /\ (forall text v, c_syllabus course = JLeaf (JStr text) -> text <> "" ->
                       JSON_parse text = Some v -> c_syllabus sent = v)
    /\ (forall text, c_syllabus course = JLeaf (JStr text) -> text <> "" ->
                     JSON_parse text = None -> c_syllabus sent = JArray [])
    /\ (c_syllabus course = JLeaf (JStr "") -> sent = course)
    /\ ((forall text, c_syllabus course <> JLeaf (JStr text)) -> sent = course).
Proof.
  intros Hsel Hdb. unfold get_course. eexists. eexists. split.
  - apply try_catch_return.
    eapply bind_return; [apply (db_query_ok _ 0 w Hdb)|].
    cbn [fst snd]. rewrite Hsel. reflexivity.
  - assert (Hnonempty : forall text, text <> "" -> truthy (JStr text) = true).
    { intros text Hne. cbn. destruct (String.eqb_spec text ""); [contradiction|].
      reflexivity. }
    destruct (c_syllabus course) as [[| |b|n|text]|items|members] eqn:Es;
      cbn [text_to_parse].
    all: try (repeat split; intros; try discriminate; try reflexivity;
              match goal with
              | H : forall text, _ <> _ |- _ => exfalso; eapply H; reflexivity
              | _ => idtac
              end; fail).
    destruct (String.eqb_spec text "") as [->|Hne].
    + cbn [truthy String.eqb negb].
      repeat split; intros; try reflexivity;
        try match goal with
            | H : JLeaf (JStr "") = JLeaf (JStr ?t), N : ?t <> "" |- _ =>
                injection H as H; subst; contradiction
            end.
    + rewrite (Hnonempty text Hne).
      destruct (JSON_parse text) as [v|] eqn:Ep; cbn [with_syllabus c_id c_columns c_syllabus].
      * repeat split; intros.
        -- injection H as H. subst. congruence.
        -- injection H as H. subst. congruence.
        -- injection H as H. subst. contradiction.
        -- exfalso. eapply H. reflexivity.
      * repeat split; intros.
        -- injection H as H. subst. congruence.
        -- injection H as H. subst. contradiction.
        -- exfalso. eapply H. reflexivity.
Qed.

End ReadProperties.

Lemma get_course_unknown_witness :
  exists w' : World,
    get_course toy_parse sample_catalog "9" (world0 empty_store) =
      (Return (inr (json 404 [("error", V (JStr "Course not found"))])), w')
    /\ db w' = db (world0 empty_store).
Proof.
  apply (get_course_unknown toy_parse sample_catalog "9" (world0 empty_store)).
  - simpl. intros c [<-|[<-|[]]]; reflexivity.
  - reflexivity.
Defined.

Lemma get_course_syllabus_witness :
  exists (w' : World) (sent : Course),
    get_course toy_parse sample_catalog "4" (world0 empty_store) =
      (Return (inl sent), w')
    /\ c_id sent = c_id broken /\ c_columns sent = c_columns broken
    /\ (forall text v, c_syllabus broken = JLeaf (JStr text) -> text <> "" ->
                       toy_parse text = Some v -> c_syllabus sent = v)
    /\ (forall text, c_syllabus broken = JLeaf (JStr text) -> text <> "" ->
                     toy_parse text = None -> c_syllabus sent = JArray [])
    /\ (c_syllabus broken = JLeaf (JStr "") -> sent = broken)
    /\ ((forall text, c_syllabus broken <> JLeaf (JStr text)) -> sent = broken).
Proof.
  apply (get_course_syllabus toy_parse sample_catalog "4" (world0 empty_store)
           broken []); reflexivity.
Defined.

(** ** Listing after a write *)

Lemma order_by_id_desc_newest (l : list Testimonial) (t : Testimonial) :
  (forall x, In x l -> t_id x < t_id t) ->
  order_by_id_desc (l ++ [t]) = t :: order_by_id_desc l.
Proof.
  unfold order_by_id_desc. rewrite fold_right_app. cbn [fold_right insert_desc].
  induction l as [|x l IH]; intros H; [reflexivity|].
  cbn [fold_right]. rewrite IH by (intros y Hy; apply H; right; exact Hy).
  cbn [insert_desc].
  destruct (Z.leb_spec (t_id t) (t_id x)) as [Hle|_]; [|reflexivity].
  specialize (H x (or_introl eq_refl)). lia.
Qed.

(** Lines 305 and 315-319 together: a testimonial that has just been
    posted is the first of the list that GET /api/testimonials answers, the
    keys of the table being below its counter. *)
Theorem posted_testimonial_listed_first {cmp : SqlCompare} (w : World) (req : body) :
  keys_below (testimonials (db w)) ->
  db_ok 2 w = true ->
  fst (get_testimonials (snd (post_testimonial req w))) =
    Return (inl (mkTestimonial (next_id (testimonials (db w)))
                   (to_sql (prop "name" req)) (to_sql (prop "role" req))
                   (to_sql (prop "review" req)) (to_sql (prop "verified" req))
                 :: order_by_id_desc (rows (testimonials (db w))))).
Proof.
  intros Hkeys Hdb.
  assert (E : post_testimonial req w =
              (Return (json 200 [("message", V (JStr "Testimonial added successfully"));
                                 ("id", V (JNum (next_id (testimonials (db w)))))]),
               set_db (snd (insert_testimonial (prop "name" req) (prop "role" req)
                              (prop "review" req) (prop "verified" req) (db w)))
                      (tick_db w))).
  { unfold post_testimonial. apply try_catch_return.
    eapply bind_return; [apply (db_query_ok _ 1 w Hdb)|]. reflexivity. }
  rewrite E. cbn [snd]. unfold get_testimonials.
  erewrite try_catch_return.
  2:{ eapply bind_return.
      - apply (db_query_ok _ 0). apply db_ok_tick. exact Hdb.
      - reflexivity. }
  cbn [fst snd db set_db insert_testimonial insert_keyed testimonials rows].
  rewrite order_by_id_desc_newest; [reflexivity|].
  intros x Hx. cbn [t_id]. apply Hkeys. exact Hx.
Qed.

Lemma posted_testimonial_listed_first_witness :
  fst (get_testimonials
         (snd (post_testimonial [("name", JStr "Bo"); ("review", JStr "Great")]
                 (world0 store_with_reviews)))) =
    Return (inl [mkTestimonial 3 (JStr "Bo") JNull (JStr "Great") JNull;
                 mkTestimonial 2 (JStr "Cy") (JStr "Alumna") (JStr "Clear") (JNum 1);
                 mkTestimonial 1 (JStr "Di") (JStr "Student") (JStr "Good") (JNum 0)]).
Proof.
  apply (posted_testimonial_listed_first (world0 store_with_reviews)
           [("name", JStr "Bo"); ("review", JStr "Great")]).
  - intros x [<-|[<-|[]]]; simpl; lia.
  - reflexivity.
Defined.

(** Lines 160-161 and 174-179 together: after a signup, GET /api/users
    answers every stored user, the new one last, each with the password as
    it was sent. *)
Theorem signup_then_list_users {cmp : SqlCompare} (w : World) (req : body) :
  fst (select_users_by_email (prop "email" req) (db w)) = [] ->
  db_ok 3 w = true ->
  fst (get_users (snd (signup req w))) =
    Return (inl (users (db w) ++
                 [mkUser (to_sql (prop "name" req)) (to_sql (prop "email" req))
                         (to_sql (prop "password" req))])%list).
Proof.
  intros Hnone Hdb.
  assert (E : exists w1,
             signup req w =
               (Return (json 200 [("message", V (JStr "Signup successful!"))]), w1)
             /\ db w1 = snd (insert_user (prop "name" req) (prop "email" req)
                               (prop "password" req) (db w))
             /\ db_ok 1 w1 = true).
  { unfold signup. eexists. split; [|split].
    - apply try_catch_return.
      eapply bind_return; [apply (db_query_ok _ 2 w Hdb)|].
      rewrite Hnone. cbn [List.length Nat.ltb Nat.leb].
      eapply bind_return.
      { apply (db_query_ok _ 1). apply db_ok_tick. exact Hdb. }
      reflexivity.
    - reflexivity.
    - do 2 apply db_ok_tick. exact Hdb. }
  destruct E as (w1 & E & D & Hok). rewrite E. cbn [snd].
  unfold get_users.
  erewrite try_catch_return.
  2:{ eapply bind_return; [apply (db_query_ok _ 0 w1 Hok)|]. reflexivity. }
  cbn [fst]. rewrite D. reflexivity.
Qed.

Lemma signup_then_list_users_witness :
  fst (get_users (snd (signup [("name", JStr "Bo"); ("email", JStr "bo@example.org");
                               ("password", JStr "s3cret")]
                              (world0 store_with_ann)))) =
    Return (inl [ann; mkUser (JStr "Bo") (JStr "bo@example.org") (JStr "s3cret")]).
Proof.
  apply (signup_then_list_users (world0 store_with_ann)
           [("name", JStr "Bo"); ("email", JStr "bo@example.org");
            ("password", JStr "s3cret")]); reflexivity.
Defined.

(** ** What the handlers never do *)

Lemma extends_refl {A} (l : list A) : extends l l.
Proof. exists []. symmetry. apply app_nil_r. Qed.

Lemma extends_trans {A} (l1 l2 l3 : list A) :
  extends l1 l2 -> extends l2 l3 -> extends l1 l3.
Proof.
  intros [a ->] [b ->]. exists (a ++ b)%list. symmetry. apply app_assoc.
Qed.

Lemma extends_one {A} (l : list A) (x : A) : extends l (l ++ [x]).
Proof. exists [x]. reflexivity. Qed.

Lemma rows_kept_refl (s : Store) : rows_kept s s.
Proof. repeat split; apply extends_refl. Qed.

Lemma rows_kept_trans (s1 s2 s3 : Store) :
  rows_kept s1 s2 -> rows_kept s2 s3 -> rows_kept s1 s3.
Proof.
  intros (A1 & A2 & A3 & A4 & A5 & A6) (B1 & B2 & B3 & B4 & B5 & B6).
  repeat split; eapply extends_trans; eassumption.
Qed.

Lemma keeps_ret {A} (a : A) : keeps_rows (ret a).
Proof. intros w. apply rows_kept_refl. Qed.

Lemma keeps_throw {A} (e : js_error) : keeps_rows (@throw A e).
Proof. intros w. apply rows_kept_refl. Qed.

Lemma keeps_console_log (line : string) : keeps_rows (console_log line).
Proof. intros w. apply rows_kept_refl. Qed.

Lemma keeps_bind {A B} (m : M A) (k : A -> M B) :
  keeps_rows m -> (forall a, keeps_rows (k a)) -> keeps_rows (bind m k).
Proof.
  intros Hm Hk w. unfold bind. specialize (Hm w).
  destruct (m w) as [[a|e] w1]; cbn [snd] in *; [|exact Hm].
  eapply rows_kept_trans; [exact Hm|apply Hk].
Qed.

Lemma keeps_try_catch {A} (m : M A) (h : js_error -> M A) :
  keeps_rows m -> (forall e, keeps_rows (h e)) -> keeps_rows (try_catch m h).
Proof.
  intros Hm Hh w. unfold try_catch. specialize (Hm w).
  destruct (m w) as [[a|e] w1]; cbn [snd] in *; [exact Hm|].
  eapply rows_kept_trans; [exact Hm|apply Hh].
Qed.

Lemma keeps_db_query {A} (op : Store -> A * Store) :
  (forall s, rows_kept s (snd (op s))) -> keeps_rows (db_query op).
Proof.
  intros Hop w. unfold db_query.
  destruct w as [s u o c t f m]. cbn [db db_faults].
  specialize (Hop s).
  destruct f as [|[|] f]; cbn; try apply rows_kept_refl;
    destruct (op s) as [a s']; exact Hop.
Qed.

Lemma keeps_sendMailSafe (to : scalar) (subject html : string) :
  keeps_rows (sendMailSafe to subject html).
Proof.
  intros w. rewrite (proj1 (sendMailSafe_frame to subject html w)).
  apply rows_kept_refl.
Qed.

Lemma keeps_call (f : string) (to : scalar) (subject html : string) :
  keeps_rows (call f to subject html).
Proof.
  unfold call. destruct (assoc f module_functions) as [g|] eqn:E; [|apply keeps_throw].
  cbn in E. destruct (String.eqb f "sendMailSafe"); [|discriminate].
  injection E as <-. apply keeps_sendMailSafe.
Qed.

Ltac keeps_step :=
  first
    [ apply keeps_try_catch; [|intros ?]
    | apply keeps_bind; [|intros ?]
    | apply keeps_ret
    | apply keeps_console_log
    | apply keeps_call
    | apply keeps_db_query; intros ?;
      first [ apply rows_kept_refl
            | repeat split; first [apply extends_refl | apply extends_one] ] ].

(** No POST handler removes or alters a row of the enrollments, users,
    registrations, mentor applications, testimonials or demo requests: in
    every world, with every oracle and every body, each of these tables
    afterwards is the table before with rows added at its end.  (Only
    [user_otps] loses rows, in verify-otp.) *)
Theorem posts_only_append {cmp : SqlCompare} (req : body) (now rnd : Z)
  (file : option string) :
  keeps_rows (enroll req) /\ keeps_rows (signup req)
  /\ keeps_rows (login now rnd req) /\ keeps_rows (verify_otp now req)
  /\ keeps_rows (register req) /\ keeps_rows (post_testimonial req)
  /\ keeps_rows (demo_request req) /\ keeps_rows (mentor_apply req file).
Proof.
  repeat match goal with |- _ /\ _ => split end.
  - unfold enroll. destruct (_ || _); repeat keeps_step.
  - unfold signup. repeat keeps_step.
    destruct (0 <? _)%nat; repeat keeps_step.
  - unfold login. repeat keeps_step.
    match goal with |- keeps_rows (match ?l with _ => _ end) => destruct l end;
      repeat keeps_step.
  - unfold verify_otp. repeat keeps_step.
    match goal with |- keeps_rows (match ?l with _ => _ end) => destruct l end;
      repeat keeps_step.
  - unfold register. destruct (_ || _); repeat keeps_step.
  - unfold post_testimonial. repeat keeps_step.
  - unfold demo_request. repeat keeps_step.
  - unfold mentor_apply. destruct file; repeat keeps_step.
Qed.

(** ** Failures of the store while reading *)

(** The catch blocks of the GET handlers: when the query fails, each
    answers 500 with a body of its own shape (workshops and testimonials put
    the raw error into it), and the store is as it was. *)
Theorem read_failure_answers_500 {cmp : SqlCompare}
  (JSON_parse : string -> option jtree) (cat : Catalog) (id : string)
  (w : World) (rest : list bool) :
  db_faults w = true :: rest ->
  fst (get_courses cat w) =
    Return (inr (json 500 [("error", V (JStr "Database error"))]))
  /\ fst (get_course JSON_parse cat id w) =
       Return (inr (json 500 [("error", V (JStr "Internal server error"))]))
  /\ fst (get_users w) =
       Return (inr (json 500 [("success", V (JBool false));
                              ("message", V (JStr "DB error"))]))
  /\ fst (get_workshops cat w) =
       Return (inr (json 500 [("success", V (JBool false)); ("message", Err DbError)]))
  /\ fst (get_testimonials w) = Return (inr (json 500 [("error", Err DbError)]))
  /\ db (snd (get_courses cat w)) = db w
  /\ db (snd (get_course JSON_parse cat id w)) = db w
  /\ db (snd (get_users w)) = db w
  /\ db (snd (get_workshops cat w)) = db w
  /\ db (snd (get_testimonials w)) = db w.
Proof.
  intros Hf.
  assert (Hq : forall A (op : Store -> A * Store),
             db_query op w = (Throw DbError, set_db_faults rest w))
    by (intros; apply db_query_fault; exact Hf).
  unfold get_courses, get_course, get_users, get_workshops, get_testimonials,
    try_catch, bind.
  rewrite !Hq. repeat split.
Qed.

Lemma read_failure_answers_500_witness :
  fst (get_workshops sample_catalog (db_down empty_store)) =
    Return (inr (json 500 [("success", V (JBool false)); ("message", Err DbError)])).
Proof.
  pose proof (read_failure_answers_500 toy_parse sample_catalog "3"
                (db_down empty_store) [] eq_refl) as (_ & _ & _ & H & _).
  exact H.
Defined.
